(** * The NSO REST connector: a shallow embedding and its contract

    Embeds [rest/connector/libs/nso/implementation.py] (class
    [Implementation]: [connect], [disconnect], [get], [post], [patch],
    [put], [delete]) and proves the properties its specification states.

    Conventions of the embedding.
    - A Python [str] is a [string]; each character stands for the code
      point of the same number, so the strings covered are those whose
      code points are below 256.
    - [self] is the record [Self.t]; an attribute that was never assigned
      is [None] and reading it raises [AttributeError].
    - The transport ([requests]) is an oracle answering each request with
      a response or an exception; every call made to it is appended to the
      trace [wire], so that "no request was issued" is a statement about
      that trace.
    - Calls to [log] have no effect on the client and are left out, and
      with them the [verbose] argument, which only selects log lines.
    - The methods run in a state and exception monad over [world], the
      client together with the trace of the transport.

    The definitions come first (strings, [ipaddress], the world, the
    class, the observations, a testbed), then the contract. *)

From Stdlib Require Import ZArith NArith Ascii String List Bool Lia DecimalString.
From stdpp Require Import base option strings gmap.

Local Open Scope string_scope.
Local Open Scope Z_scope.
Local Open Scope list_scope.

(** ** Python string operations used by the source *)

Module PyStr.

Definition code (c : ascii) : N := N_of_ascii c.

(** [str.lower] on one character: A-Z, and the upper-case letters of
    Latin-1 (U+00C0..U+00DE but the multiplication sign U+00D7). *)
Definition lower_char (c : ascii) : ascii :=
  let n := code c in
  if ((65 <=? n) && (n <=? 90))%N then ascii_of_N (n + 32)
  else if ((192 <=? n) && (n <=? 222) && negb (n =? 215))%N
       then ascii_of_N (n + 32)
  else c.

Fixpoint lower (s : string) : string :=
  match s with
  | EmptyString => EmptyString
  | String c r => String (lower_char c) (lower r)
  end.

(** The characters [str.lstrip()] removes: TAB..CR, FS..US, space,
    NEL and the no-break space. *)
Definition isspace (c : ascii) : bool :=
  let n := code c in
  (((9 <=? n) && (n <=? 13)) || ((28 <=? n) && (n <=? 32))
   || (n =? 133) || (n =? 160))%N.

Fixpoint lstrip (s : string) : string :=
  match s with
  | EmptyString => EmptyString
  | String c r => if isspace c then lstrip r else s
  end.

(** [re.match(p, s) is not None] for a pattern [p] without
    metacharacters: [s] starts with [p]. *)
Fixpoint startswith (p s : string) : bool :=
  match p, s with
  | EmptyString, _ => true
  | String a p', String b s' => if Ascii.eqb a b then startswith p' s' else false
  | String _ _, EmptyString => false
  end.

(** [p in s] on strings. *)
Fixpoint contains (p s : string) : bool :=
  startswith p s ||
  match s with
  | EmptyString => false
  | String _ r => contains p r
  end.

(** [str(n)] for an integer. *)
Definition of_int (z : Z) : string := NilZero.string_of_int (Z.to_int z).

Definition newline : string := String (ascii_of_N 10) EmptyString.

(** [sep.join(l)] *)
Fixpoint join (sep : string) (l : list string) : string :=
  match l with
  | [] => ""
  | [x] => x
  | x :: r => x +:+ sep +:+ join sep r
  end.

(** [s.split(sep)] for a one-character separator. *)
Fixpoint split (sep : ascii) (s : string) : list string :=
  match s with
  | EmptyString => [""]
  | String c r =>
      if Ascii.eqb c sep then "" :: split sep r
      else match split sep r with
           | [] => [String c ""]
           | x :: xs => String c x :: xs
           end
  end.

End PyStr.

(** ** The part of the standard [ipaddress] module that [connect] uses

    [ip_address], the two address classes and their [exploded] property.
    Text with a zone identifier ([%]) is rejected. *)

Module IpAddress.

Record IPv4Address := { v4_ip : N }.
Record IPv6Address := { v6_ip : N }.

Inductive address :=
| V4 (a : IPv4Address)
| V6 (a : IPv6Address).

Definition digit_val (c : ascii) : option N :=
  let n := PyStr.code c in
  if ((48 <=? n) && (n <=? 57))%N then Some (n - 48)%N else None.

Definition hex_val (c : ascii) : option N :=
  let n := PyStr.code c in
  if ((48 <=? n) && (n <=? 57))%N then Some (n - 48)%N
  else if ((97 <=? n) && (n <=? 102))%N then Some (n - 87)%N
  else if ((65 <=? n) && (n <=? 70))%N then Some (n - 55)%N
  else None.

(** [int(s, base)] for a string already known to consist of digits:
    [None] as soon as a character is not a digit. *)
Fixpoint int_of (dv : ascii -> option N) (base : N) (acc : N) (s : string)
  : option N :=
  match s with
  | EmptyString => Some acc
  | String c r =>
      match dv c with
      | Some d => int_of dv base (acc * base + d)%N r
      | None => None
      end
  end.

(** [_parse_octet]: one to three decimal digits, no leading zero but
    for ["0"] itself, value at most 255. *)
Definition parse_octet (s : string) : option N :=
  match s with
  | EmptyString => None
  | String c r =>
      match int_of digit_val 10 0 s with
      | None => None
      | Some n =>
          if (3 <? String.length s)%nat then None
          else if Ascii.eqb c "0" && negb (String.eqb s "0") then None
          else if (255 <? n)%N then None
          else Some n
      end
  end.

Fixpoint pack (width : N) (acc : N) (l : list (option N)) : option N :=
  match l with
  | [] => Some acc
  | None :: _ => None
  | Some x :: r => pack width (N.lor (N.shiftl acc width) x) r
  end.

(** [IPv4Address._ip_int_from_string] *)
Definition v4_int_from_string (s : string) : option N :=
  let octets := PyStr.split "." s in
  if negb (length octets =? 4)%nat then None
  else pack 8 0 (map parse_octet octets).

(** [_parse_hextet]: one to four hexadecimal digits. *)
Definition parse_hextet (s : string) : option N :=
  match s with
  | EmptyString => None
  | _ =>
      match int_of hex_val 16 0 s with
      | None => None
      | Some n => if (4 <? String.length s)%nat then None else Some n
      end
  end.

Definition is_empty (s : string) : bool :=
  match s with EmptyString => true | _ => false end.

(** The loop that looks for the one empty part strictly inside:
    [Some None] none found, [Some (Some i)] found at index [i],
    [None] more than one. *)
Fixpoint find_skip (parts : list string) (i last : nat) (found : option nat)
  : option (option nat) :=
  match parts with
  | [] => Some found
  | p :: r =>
      if ((1 <=? i) && (i <? last))%nat && is_empty p then
        match found with
        | Some _ => None
        | None => find_skip r (S i) last (Some i)
        end
      else find_skip r (S i) last found
  end.

Definition hex4 (n : N) : string :=
  let d (k : N) : ascii :=
    let v := N.land (N.shiftr n (4 * k)) 15 in
    if (v <? 10)%N then ascii_of_N (48 + v) else ascii_of_N (87 + v) in
  String (d 3%N) (String (d 2%N) (String (d 1%N) (String (d 0%N) ""))).

Definition hex_of (n : N) : string :=
  let h := hex4 n in
  (* '%x' of a value below 65536: no leading zeros *)
  let fix strip (s : string) :=
    match s with
    | String c (String _ _ as r) => if Ascii.eqb c "0" then strip r else s
    | _ => s
    end in
  strip h.

(** [IPv6Address._ip_int_from_string] *)
Definition v6_int_from_string (s : string) : option N :=
  if is_empty s then None else
  let parts := PyStr.split ":" s in
  if (length parts <? 3)%nat then None else
  let lastp := List.last parts "" in
  let parts_opt :=
    if PyStr.contains "." lastp then
      match v4_int_from_string lastp with
      | None => None
      | Some v4 =>
          Some (List.app (removelast parts)
                  [hex_of (N.land (N.shiftr v4 16) 65535);
                   hex_of (N.land v4 65535)])
      end
    else Some parts in
  match parts_opt with
  | None => None
  | Some parts =>
      let n := length parts in
      if (9 <? n)%nat then None else
      match find_skip parts 0 (n - 1) None with
      | None => None
      | Some (Some skip_index) =>
          let parts_hi := skip_index in
          let parts_lo := (n - skip_index - 1)%nat in
          let first_empty := is_empty (List.hd "" parts) in
          let last_empty := is_empty (List.last parts "") in
          let parts_hi' := if first_empty then (parts_hi - 1)%nat else parts_hi in
          let parts_lo' := if last_empty then (parts_lo - 1)%nat else parts_lo in
          if first_empty && negb (parts_hi' =? 0)%nat then None
          else if last_empty && negb (parts_lo' =? 0)%nat then None
          else if (8 <? parts_hi' + parts_lo' + 1)%nat then None
          else
            let parts_skipped := (8 - (parts_hi' + parts_lo'))%nat in
            match pack 16 0 (map parse_hextet (firstn parts_hi' parts)) with
            | None => None
            | Some hi =>
                pack 16 (N.shiftl hi (16 * N.of_nat parts_skipped))
                     (map parse_hextet (skipn (n - parts_lo') parts))
            end
      | Some None =>
          if negb (n =? 8)%nat then None
          else if is_empty (List.hd "" parts) then None
          else if is_empty (List.last parts "") then None
          else pack 16 0 (map parse_hextet parts)
      end
  end.

(** [ip_address(text)]: an IPv4 address if the text parses as one, else
    an IPv6 address, else [ValueError] ([None]). *)
Definition ip_address (s : string) : option address :=
  match v4_int_from_string s with
  | Some n => Some (V4 {| v4_ip := n |})
  | None =>
      match v6_int_from_string s with
      | Some n => Some (V6 {| v6_ip := n |})
      | None => None
      end
  end.

(** [IPv4Address.exploded]: the dotted quad. *)
Definition v4_exploded (a : IPv4Address) : string :=
  let o (k : N) := PyStr.of_int (Z.of_N (N.land (N.shiftr (v4_ip a) (8 * k)) 255)) in
  PyStr.join "." [o 3%N; o 2%N; o 1%N; o 0%N].

(** [IPv6Address.exploded]: ['%032x'] cut in eight groups of four. *)
Definition v6_exploded (a : IPv6Address) : string :=
  let h (k : N) := hex4 (N.land (N.shiftr (v6_ip a) (16 * k)) 65535) in
  PyStr.join ":" [h 7%N; h 6%N; h 5%N; h 4%N; h 3%N; h 2%N; h 1%N; h 0%N].

End IpAddress.

(** ** Exceptions, values and the world the connector runs in *)

Inductive exn :=
| PyException (msg : string)          (* raise Exception(...) *)
| RequestException (msg : string)
| AssertionError (msg : string)
| KeyError (key : string)
| ValueError (msg : string)
| ImportError (msg : string)
| AttributeError (msg : string)
| UnboundLocalError (name : string)
| TransportError (msg : string).      (* raised inside the transport *)

Inductive outcome (A : Type) :=
| Ok (a : A)
| Raise (e : exn).
Arguments Ok {A} a.
Arguments Raise {A} e.

(** A payload "can be string or dict": the dict is kept as its items. *)
#[warnings="-register-all"]
Inductive pyvalue :=
| PyNone
| PyBool (b : bool)
| PyInt (z : Z)
| PyText (s : string)
| PyList (l : list pyvalue)
| PyDict (items : list (string * pyvalue)).

Inductive payload :=
| PStr (s : string)
| PDict (items : list (string * pyvalue)).

(** [isinstance(payload, dict)] *)
Definition is_dict (p : payload) : bool :=
  match p with PDict _ => true | PStr _ => false end.

Inductive verb := GET | POST | PATCH | PUT | DELETE.

(** [requests.structures.CaseInsensitiveDict]: the store maps the
    lower-cased key to the key as last written and its value. *)
Abbreviation headers := (gmap string (string * string)).

Definition setitem (k v : string) (h : headers) : headers :=
  <[PyStr.lower k := (k, v)]> h.

Definition getitem (k : string) (h : headers) : option string :=
  snd <$> h !! PyStr.lower k.

(** [h.update(d)]: the items of [d] written one by one, in the order of
    the dict. *)
Definition update (d : list (string * string)) (h : headers) : headers :=
  fold_left (fun acc kv => setitem kv.1 kv.2 acc) d h.

Record Session := {
  auth : option (string * string);
  session_headers : headers
}.

Record request := {
  method : verb;
  url : string;
  data : option payload;
  request_headers : headers;
  request_auth : option (string * string);
  request_timeout : Z
}.

Record response := {
  status_code : Z;
  reason : string;
  text : string
}.

(** What reached the transport. *)
Inductive event :=
| Sent (r : request)
| Closed.

(** [expected_status_codes]: the defaults are tuples, a caller may pass a
    list. *)
Inductive codes :=
| CTuple (l : list Z)
| CList (l : list Z).

Definition code_list (c : codes) : list Z :=
  match c with CTuple l | CList l => l end.

(** [status not in expected_status_codes] is [negb (code_in ...)]. *)
Definition code_in (status : Z) (c : codes) : bool :=
  existsb (Z.eqb status) (code_list c).

(** [str] of the container, as the error message shows it. *)
Definition codes_repr (c : codes) : string :=
  match c with
  | CTuple [] => "()"
  | CTuple [x] => "(" +:+ PyStr.of_int x +:+ ",)"
  | CTuple l => "(" +:+ PyStr.join ", " (map PyStr.of_int l) +:+ ")"
  | CList l => "[" +:+ PyStr.join ", " (map PyStr.of_int l) +:+ "]"
  end.

(** [requests.codes] *)
Module requests_codes.
Definition ok : Z := 200.
Definition created : Z := 201.
Definition no_content : Z := 204.
End requests_codes.

(** The attributes of [self] that the methods write. *)
Module Self.
Record t := {
  _is_connected : bool;
  content_type : option string;
  base_url : option string;
  login_url : option string;
  session : option Session
}.
End Self.

(** Modelled from the spec: the [connected] property, which the methods
    read and which is defined in the base class
    [rest.connector.implementation.Implementation], not among the sources.
    The spec has the client "track a boolean connected state" that is "only
    set True after success": the property reads the flag [_is_connected]
    that [connect] and [disconnect] write. *)
Definition connected (c : Self.t) : bool := Self._is_connected c.

Record world := {
  self : Self.t;
  wire : list event
}.

(** The connection block of the testbed, by the keys [connect] reads; a
    key that is absent is [None]. *)
Inductive ip_field :=
| IpText (s : string)
| IpObject (a : IpAddress.address).

Inductive port_field :=
| PortStr (s : string)
| PortInt (n : Z).

Definition port_str (p : port_field) : string :=
  match p with PortStr s => s | PortInt n => PyStr.of_int n end.

Record connection_info_t := {
  ci_sshtunnel : option unit;
  ci_host : option string;
  ci_ip : option ip_field;
  ci_port : option port_field;
  ci_protocol : option string
}.

(** What the tunnel collaborator does when asked for a tunnel. *)
Inductive tunnel_result :=
| TunnelAttributeError (msg : string)
| TunnelPort (tunnel_port : option Z) (tunnel_ip : string).

(** ** The monad of the methods: state and exceptions *)

Definition M (A : Type) : Type := world -> outcome A * world.

Definition ret {A} (a : A) : M A := fun w => (Ok a, w).

Definition bind {A B} (m : M A) (k : A -> M B) : M B :=
  fun w => match m w with
           | (Ok a, w') => k a w'
           | (Raise e, w') => (Raise e, w')
           end.

Definition raise {A} (e : exn) : M A := fun w => (Raise e, w).

(** A computation that does not touch the world. *)
Definition lift {A} (o : outcome A) : M A := fun w => (o, w).

(** [try: body finally: fin] *)
Definition try_finally {A} (body : M A) (fin : M unit) : M A :=
  fun w => match body w with
           | (r, w') =>
               match fin w' with
               | (Ok _, w'') => (r, w'')
               | (Raise e, w'') => (Raise e, w'')
               end
           end.

Declare Scope py_scope.
Delimit Scope py_scope with py.
Notation "x <- m ;; k" := (bind m (fun x => k))
  (at level 100, m at next level, right associativity) : py_scope.
Notation "m ;;; k" := (bind m (fun _ => k))
  (at level 100, right associativity) : py_scope.
Local Open Scope py_scope.

Definition get_self : M Self.t := fun w => (Ok (self w), w).

Definition set_self (f : Self.t -> Self.t) : M unit :=
  fun w => (Ok tt, {| self := f (self w); wire := wire w |}).

(** Reading an attribute of [self]. *)
Definition attr {A} (name : string) (f : Self.t -> option A) : M A :=
  c <- get_self ;;
  match f c with
  | Some a => ret a
  | None => raise (AttributeError name)
  end.

(** A local variable that some branch leaves unbound. *)
Definition local {A} (name : string) (v : option A) : M A :=
  match v with
  | Some a => ret a
  | None => raise (UnboundLocalError name)
  end.

(** ** The class [Implementation] *)

Section Implementation.

(** What [__init__] of the base class stores and no method writes. *)
Variable device_name : string.          (* self.device.name *)
Variable alias : string.                (* self.alias *)
Variable via : string.                  (* self.via *)
Variable connection_info : connection_info_t.

(** The collaborators. *)
Variable json_dumps : list (string * pyvalue) -> string.
Variable dict2xml : list (string * pyvalue) -> string.
Variable get_username_password : string * string.
Variable unicon_installed : bool.
Variable auto_tunnel_add : tunnel_result.
Variable default_headers : headers.     (* of a fresh requests.Session() *)
Variable send : list event -> request -> outcome response.
Variable close_session : list event -> option exn.

(** [self.session.headers.update(d)] *)
Definition session_headers_update (d : list (string * string)) : M unit :=
  s <- attr "session" Self.session ;;
  set_self (fun c =>
    {| Self._is_connected := Self._is_connected c;
       Self.content_type := Self.content_type c;
       Self.base_url := Self.base_url c;
       Self.login_url := Self.login_url c;
       Self.session := Some {| auth := auth s;
                               session_headers := update d (session_headers s) |} |}).

(** [self.session.<verb>(url, data, timeout=timeout)]: the request goes
    out with the headers and credentials of the session; an exception of
    the transport propagates. *)
Definition session_request (v : verb) (u : string) (d : option payload)
    (timeout : Z) : M response :=
  s <- attr "session" Self.session ;;
  fun w =>
    let r := {| method := v; url := u; data := d;
                request_headers := session_headers s;
                request_auth := auth s;
                request_timeout := timeout |} in
    (send (wire w) r, {| self := self w; wire := wire w ++ [Sent r] |}).

(** [self.session.close()] *)
Definition session_close : M unit :=
  s <- attr "session" Self.session ;;
  fun w =>
    let w' := {| self := self w; wire := wire w ++ [Closed] |} in
    match close_session (wire w) with
    | Some e => (Raise e, w')
    | None => (Ok tt, w')
    end.

Definition not_connected_message : string :=
  "'" +:+ device_name +:+ "' is not connected for alias '" +:+ alias +:+ "'".

Definition unexpected_status_message (r : response) (expected : codes) : string :=
  "'" +:+ PyStr.of_int (status_code r)
  +:+ "' result code has been returned instead of the expected status code(s) '"
  +:+ codes_repr expected +:+ "' for '" +:+ device_name +:+ "'"
  +:+ PyStr.newline +:+ text r.

Definition connection_status_message (host port : string) (c : Z) : string :=
  "Connection to '" +:+ host +:+ ":" +:+ port
  +:+ "' has returned the following code '" +:+ PyStr.of_int c
  +:+ "', instead of the expected status code '"
  +:+ PyStr.of_int requests_codes.ok +:+ "'".

(** Lines 112-123 of [connect]: the host from the connection block. *)
Definition host_from_connection_info : outcome string :=
  match ci_host connection_info with
  | Some host => Ok host
  | None =>
      match ci_ip connection_info with
      | None => Raise (KeyError "ip")
      | Some host =>
          let host := match host with
                      | IpObject a => Some a
                      | IpText s => IpAddress.ip_address s
                      end in
          match host with
          | None => Raise (ValueError "does not appear to be an IPv4 or IPv6 address")
          | Some (IpAddress.V6 a) => Ok ("[" +:+ IpAddress.v6_exploded a +:+ "]")
          | Some (IpAddress.V4 a) => Ok (IpAddress.v4_exploded a)
          end
      end
  end.

Definition connect (timeout : Z) (port : port_field) (protocol : string)
    (default_content_type : string) : M (option response) :=
  c <- get_self ;;
  if connected c then ret None else
  set_self (fun c =>
    {| Self._is_connected := Self._is_connected c;
       Self.content_type := Some default_content_type;
       Self.base_url := Self.base_url c;
       Self.login_url := Self.login_url c;
       Self.session := Self.session c |}) ;;;
  hp <- match ci_sshtunnel connection_info with
        | Some _ =>
            if negb unicon_installed then
              raise (ImportError
                "`unicon` is not installed for `sshtunnel`. Please install by `pip install unicon`.")
            else
              match auto_tunnel_add with
              | TunnelAttributeError e =>
                  raise (AttributeError
                    ("Cannot add ssh tunnel. Connection " +:+ via
                     +:+ " may not have ip/host or port." +:+ PyStr.newline +:+ e))
              | TunnelPort (Some tunnel_port) _ =>
                  (* ip and port are bound, host is not *)
                  if (tunnel_port =? 0)%Z then ret (None, port)
                  else ret (None, PortInt tunnel_port)
              | TunnelPort None _ => ret (None, port)
              end
        | None =>
            host <- lift host_from_connection_info ;;
            ret (Some host,
                 match ci_port connection_info with
                 | Some p => p
                 | None => port
                 end)
        end ;;
  let '(host, port) := hp in
  let protocol := match ci_protocol connection_info with
                  | Some p => p
                  | None => protocol
                  end in
  host <- local "host" host ;;
  let base_url := protocol +:+ "://" +:+ host +:+ ":" +:+ port_str port in
  let login_url := base_url +:+ "/api" in
  let '(username, password) := get_username_password in
  set_self (fun c =>
    {| Self._is_connected := Self._is_connected c;
       Self.content_type := Self.content_type c;
       Self.base_url := Some base_url;
       Self.login_url := Some login_url;
       Self.session := Some {| auth := Some (username, password);
                               session_headers := default_headers |} |}) ;;;
  response <- session_request GET login_url None timeout ;;
  if negb (status_code response =? requests_codes.ok)%Z then
    raise (RequestException
             (connection_status_message host (port_str port) (status_code response)))
  else
    set_self (fun c =>
      {| Self._is_connected := true;
         Self.content_type := Self.content_type c;
         Self.base_url := Self.base_url c;
         Self.login_url := Self.login_url c;
         Self.session := Self.session c |}) ;;;
    ret (Some response).

Definition disconnect : M unit :=
  try_finally session_close
    (set_self (fun c =>
       {| Self._is_connected := false;
          Self.content_type := Self.content_type c;
          Self.base_url := Self.base_url c;
          Self.login_url := Self.login_url c;
          Self.session := Self.session c |})).

(** The check every verb ends with. *)
Definition check_status (r : response) (expected_status_codes : codes)
  : M response :=
  if negb (code_in (status_code r) expected_status_codes) then
    raise (RequestException (unexpected_status_message r expected_status_codes))
  else ret r.

Definition get (api_url : string) (content_type : option string)
    (headers : option (list (string * string)))
    (expected_status_codes : codes) (timeout : Z) : M response :=
  c <- get_self ;;
  if negb (connected c) then raise (PyException not_connected_message) else
  content_type <- match content_type with
                  | None => attr "content_type" Self.content_type
                  | Some ct => ret ct
                  end ;;
  b <- attr "base_url" Self.base_url ;;
  let full_url := b +:+ api_url in
  let header fmt := "application/vnd.yang.data+" +:+ fmt
                    +:+ ", application/vnd.yang.collection+" +:+ fmt
                    +:+ ", application/vnd.yang.datastore+" +:+ fmt in
  let accept_header :=
    if String.eqb (PyStr.lower content_type) "json" then header "json"
    else if String.eqb (PyStr.lower content_type) "xml" then header "xml"
    else content_type in
  session_headers_update [("Accept", accept_header)] ;;;
  match headers with
  | Some h => session_headers_update h
  | None => ret tt
  end ;;;
  response <- session_request GET full_url None timeout ;;
  check_status response expected_status_codes.

(** Lines 275-281 of [post] (and the same lines of [patch] and [put]):
    the payload handed to the transport. *)
Definition serialize (p : payload) (content_type : option string)
  : outcome payload :=
  match p with
  | PDict items =>
      match content_type with
      | None =>
          Raise (AssertionError "content_type parameter required when passing dict")
      | Some ct =>
          if String.eqb ct "json" then Ok (PStr (json_dumps items))
          else if String.eqb ct "xml" then Ok (PStr (dict2xml items))
          else Ok p
      end
  | PStr _ => Ok p
  end.

(** Lines 283-287: the content type read off the payload when none is
    passed. [payload.lstrip()] is reached with a string only: a dict
    without content type has failed the assertion before. *)
Definition sniff (p : payload) (content_type : option string) : outcome string :=
  match content_type with
  | Some ct => Ok ct
  | None =>
      match p with
      | PStr s =>
          if PyStr.startswith "<" (PyStr.lstrip s) then Ok "xml" else Ok "json"
      | PDict _ => Raise (AttributeError "lstrip")
      end
  end.

Definition post (api_url : string) (p : payload) (content_type : option string)
    (headers : option (list (string * string)))
    (expected_status_codes : codes) (timeout : Z) : M response :=
  c <- get_self ;;
  if negb (connected c) then raise (PyException not_connected_message) else
  b <- attr "base_url" Self.base_url ;;
  let full_url := b +:+ api_url in
  request_payload <- lift (serialize p content_type) ;;
  content_type <- lift (sniff p content_type) ;;
  let content_type_header fmt :=
    if PyStr.contains "/_operations" api_url then
      "application/vnd.yang.operation+" +:+ fmt
    else if PyStr.contains "/api/" api_url then
      "application/vnd.yang.datastore+" +:+ fmt
    else "application/vnd.yang.data+" +:+ fmt in
  let accept_header fmt :=
    "application/vnd.yang.data+" +:+ fmt
    +:+ ", application/vnd.yang.collection+" +:+ fmt
    +:+ ", application/vnd.yang.datastore+" +:+ fmt in
  let '(content_type_header, accept_header) :=
    if String.eqb (PyStr.lower content_type) "json" then
      (content_type_header "json", accept_header "json")
    else if String.eqb (PyStr.lower content_type) "xml" then
      (content_type_header "xml", accept_header "xml")
    else (content_type, content_type) in
  session_headers_update [("Content-type", content_type_header)] ;;;
  session_headers_update [("Accept", accept_header)] ;;;
  match headers with
  | Some h => session_headers_update h
  | None => ret tt
  end ;;;
  response <- session_request POST full_url (Some request_payload) timeout ;;
  check_status response expected_status_codes.

Definition patch (api_url : string) (p : payload) (content_type : option string)
    (headers : option (list (string * string)))
    (expected_status_codes : codes) (timeout : Z) : M response :=
  c <- get_self ;;
  if negb (connected c) then raise (PyException not_connected_message) else
  request_payload <- lift (serialize p content_type) ;;
  b <- attr "base_url" Self.base_url ;;
  let full_url := b +:+ api_url in
  content_type <- lift (sniff p content_type) ;;
  let content_type_header fmt := "application/vnd.yang.data+" +:+ fmt in
  let accept_header fmt :=
    "application/vnd.yang.data+" +:+ fmt
    +:+ ", application/vnd.yang.collection+" +:+ fmt
    +:+ ", application/vnd.yang.datastore+" +:+ fmt in
  let '(content_type_header, accept_header) :=
    if String.eqb (PyStr.lower content_type) "json" then
      (content_type_header "json", accept_header "json")
    else if String.eqb (PyStr.lower content_type) "xml" then
      (content_type_header "xml", accept_header "xml")
    else (content_type, content_type) in
  session_headers_update [("Content-type", content_type_header)] ;;;
  session_headers_update [("Accept", accept_header)] ;;;
  match headers with
  | Some h => session_headers_update h
  | None => ret tt
  end ;;;
  response <- session_request PATCH full_url (Some request_payload) timeout ;;
  check_status response expected_status_codes.

Definition put (api_url : string) (p : payload) (content_type : option string)
    (headers : option (list (string * string)))
    (expected_status_codes : codes) (timeout : Z) : M response :=
  c <- get_self ;;
  if negb (connected c) then raise (PyException not_connected_message) else
  b <- attr "base_url" Self.base_url ;;
  let full_url := b +:+ api_url in
  request_payload <- lift (serialize p content_type) ;;
  content_type <- lift (sniff p content_type) ;;
  let content_type_header fmt := "application/vnd.yang.data+" +:+ fmt in
  let accept_header fmt :=
    "application/vnd.yang.data+" +:+ fmt
    +:+ ", application/vnd.yang.collection+" +:+ fmt
    +:+ ", application/vnd.yang.datastore+" +:+ fmt in
  let '(content_type_header, accept_header) :=
    if String.eqb (PyStr.lower content_type) "json" then
      (content_type_header "json", accept_header "json")
    else if String.eqb (PyStr.lower content_type) "xml" then
      (content_type_header "xml", accept_header "xml")
    else (content_type, content_type) in
  session_headers_update [("Content-type", content_type_header)] ;;;
  session_headers_update [("Accept", accept_header)] ;;;
  match headers with
  | Some h => session_headers_update h
  | None => ret tt
  end ;;;
  response <- session_request PUT full_url (Some request_payload) timeout ;;
  check_status response expected_status_codes.

Definition delete (api_url : string) (content_type : option string)
    (headers : option (list (string * string)))
    (expected_status_codes : codes) (timeout : Z) : M response :=
  c <- get_self ;;
  if negb (connected c) then raise (PyException not_connected_message) else
  content_type <- match content_type with
                  | None => attr "content_type" Self.content_type
                  | Some ct => ret ct
                  end ;;
  b <- attr "base_url" Self.base_url ;;
  let full_url := b +:+ api_url in
  let accept_header :=
    if String.eqb (PyStr.lower content_type) "json" then
      "application/vnd.yang.data+json"
    else if String.eqb (PyStr.lower content_type) "xml" then
      "application/vnd.yang.data+xml"
    else content_type in
  session_headers_update [("Accept", accept_header)] ;;;
  match headers with
  | Some h => session_headers_update h
  | None => ret tt
  end ;;;
  response <- session_request DELETE full_url None timeout ;;
  check_status response expected_status_codes.

(** The default arguments. *)
Definition default_timeout : Z := 30.
Definition default_port : port_field := PortStr "8080".
Definition default_protocol : string := "http".
Definition default_content_type : string := "json".
Definition get_default_codes : codes :=
  CTuple [requests_codes.no_content; requests_codes.ok].
Definition write_default_codes : codes :=
  CTuple [requests_codes.created; requests_codes.no_content; requests_codes.ok].

End Implementation.

(** ** Observing a call *)

(** What a call added to the trace of the transport. *)
Definition issued {A} (m : M A) (w : world) : list event :=
  skipn (length (wire w)) (wire (snd (m w))).

(** The one request of a call that issued exactly one. *)
Definition the_request {A} (m : M A) (w : world) : option request :=
  match issued m w with
  | [Sent r] => Some r
  | _ => None
  end.

(** The value under which the request of a call carries header [name]. *)
Definition sent_header {A} (name : string) (m : M A) (w : world)
  : option string :=
  match the_request m w with
  | Some r => getitem name (request_headers r)
  | None => None
  end.

(** The body the request of a call carries. *)
Definition sent_data {A} (m : M A) (w : world) : option payload :=
  match the_request m w with
  | Some r => data r
  | None => None
  end.

(** The Content-Type the specification gives [post], [patch] and [put]
    alike, in its words: operation for a path containing /_operations,
    datastore for a path containing /api/, data for any other path. *)
Definition spec_content_type_header (api_url fmt : string) : string :=
  if PyStr.contains "/_operations" api_url then
    "application/vnd.yang.operation+" +:+ fmt
  else if PyStr.contains "/api/" api_url then
    "application/vnd.yang.datastore+" +:+ fmt
  else "application/vnd.yang.data+" +:+ fmt.

(** The Accept header the specification gives every verb, in its words:
    the three media types data, collection and datastore with the
    suffix. *)
Definition spec_accept_header (fmt : string) : string :=
  "application/vnd.yang.data+" +:+ fmt
  +:+ ", application/vnd.yang.collection+" +:+ fmt
  +:+ ", application/vnd.yang.datastore+" +:+ fmt.

(** Every character of the string passes the test. *)
Fixpoint all_chars (f : ascii -> bool) (s : string) : bool :=
  match s with
  | EmptyString => true
  | String c r => f c && all_chars f r
  end.

(** A string of whitespace only, and (below) a string that does not start
    with whitespace: how a payload splits under [lstrip]. *)
Definition all_space (s : string) : bool := all_chars PyStr.isspace s.

(** A lower-case hexadecimal digit, or the colon between two groups. *)
Definition is_hex_or_colon (c : ascii) : bool :=
  let n := PyStr.code c in
  (((48 <=? n) && (n <=? 57)) || ((97 <=? n) && (n <=? 102)) || (n =? 58))%N.

Definition no_leading_space (s : string) : bool :=
  match s with
  | EmptyString => true
  | String c _ => negb (PyStr.isspace c)
  end.

(** Whether the caller's [headers] write header [name]. *)
Definition overrides (name : string) (hs : option (list (string * string)))
  : bool :=
  match hs with
  | None => false
  | Some d => existsb (fun kv => String.eqb (PyStr.lower kv.1) (PyStr.lower name)) d
  end.

(** The headers of the session as a verb leaves them: the negotiated ones
    written first, the caller's last. *)
Definition merged (negotiated : list (string * string))
    (hs : option (list (string * string))) (h : headers) : headers :=
  match hs with
  | Some d => update d (update negotiated h)
  | None => update negotiated h
  end.

(** The three media types of the Accept header. *)
Definition accept3 (fmt : string) : string :=
  "application/vnd.yang.data+" +:+ fmt
  +:+ ", application/vnd.yang.collection+" +:+ fmt
  +:+ ", application/vnd.yang.datastore+" +:+ fmt.

(** A value chosen by the content type as the verbs compare it: lower-cased,
    against json and xml. *)
Definition by_format {A} (ct : string) (f : string -> A) (other : A) : A :=
  if String.eqb (PyStr.lower ct) "json" then f "json"
  else if String.eqb (PyStr.lower ct) "xml" then f "xml"
  else other.

(** The Content-type template [post] picks by the shape of the path. *)
Definition url_content_type (api_url fmt : string) : string :=
  if PyStr.contains "/_operations" api_url then
    "application/vnd.yang.operation+" +:+ fmt
  else if PyStr.contains "/api/" api_url then
    "application/vnd.yang.datastore+" +:+ fmt
  else "application/vnd.yang.data+" +:+ fmt.

(** The attributes a verb has no business with: everything but the headers
    of the session. *)
Definition same_attributes (c c' : Self.t) : Prop :=
  Self._is_connected c' = Self._is_connected c
  /\ Self.content_type c' = Self.content_type c
  /\ Self.base_url c' = Self.base_url c
  /\ Self.login_url c' = Self.login_url c
  /\ (auth <$> Self.session c') = (auth <$> Self.session c).

(** A computation that keeps them, from every world. *)
Definition keeps {A} (m : M A) : Prop :=
  forall w, same_attributes (self w) (self (snd (m w))).

(** A computation that sends nothing, and one whose additions to the
    trace satisfy [P]. *)
Definition quiet {A} (m : M A) : Prop :=
  forall w, wire (snd (m w)) = wire w.

Definition emits {A} (P : list event -> Prop) (m : M A) : Prop :=
  forall w, exists evs, wire (snd (m w)) = wire w ++ evs /\ P evs.

(** The world with another default content type, and a computation that
    does not see the difference. *)
Definition with_default (d : option string) (w : world) : world :=
  {| self := {| Self._is_connected := Self._is_connected (self w);
                Self.content_type := d;
                Self.base_url := Self.base_url (self w);
                Self.login_url := Self.login_url (self w);
                Self.session := Self.session (self w) |};
     wire := wire w |}.

Definition blind {A} (d : option string) (m : M A) : Prop :=
  forall w, m (with_default d w)
            = (fst (m w), with_default d (snd (m w))).

(** Nothing, or one request of the given method. *)
Definition at_most_one (v : verb) (evs : list event) : Prop :=
  evs = [] \/ exists r, evs = [Sent r] /\ method r = v.

(** What a verb makes of the answer of the transport: the response when
    its status is expected, the RequestException of lines 235-243
    otherwise, and the exception of the transport as it is. *)
Definition checked (device_name : string) (expected : codes)
    (answer : outcome response) : outcome response :=
  match answer with
  | Ok resp =>
      if code_in (status_code resp) expected then Ok resp
      else Raise (RequestException
                    ("'" +:+ PyStr.of_int (status_code resp)
                     +:+ "' result code has been returned instead of the expected status code(s) '"
                     +:+ codes_repr expected +:+ "' for '" +:+ device_name +:+ "'"
                     +:+ PyStr.newline +:+ text resp))
  | Raise e => Raise e
  end.

(** A property of every run that has sent its request: of the trace it
    started from, the request, and the result with the world it left. *)
Definition on_request {A}
    (Q : list event -> request -> outcome A * world -> Prop) (m : M A) : Prop :=
  forall w r, the_request m w = Some r -> Q (wire w) r (m w).

(** The session holds the headers and credentials of the request. *)
Definition holds_request (_ : list event) (r : request)
    (res : outcome response * world) : Prop :=
  Self.session (self (snd res))
  = Some {| auth := request_auth r; session_headers := request_headers r |}.

(** ** A testbed: the device [ncs] of the class docstring, reached over IPv6 *)

Module Testbed.

Definition device_name : string := "ncs".
Definition alias : string := "rest".
Definition via : string := "rest".

Definition connection_info : connection_info_t :=
  {| ci_sshtunnel := None;
     ci_host := None;
     ci_ip := Some (IpText "::1");
     ci_port := Some (PortStr "8080");
     ci_protocol := Some "http" |}.

Definition credentials : string * string := ("admin", "admin").

(** Stand-ins for the two serializers: they list the keys. *)
Definition json_dumps (items : list (string * pyvalue)) : string :=
  "{" +:+ PyStr.join ", " (map fst items) +:+ "}".
Definition dict2xml (items : list (string * pyvalue)) : string :=
  PyStr.join " " (map (fun kv => "<" +:+ fst kv +:+ "/>") items).

Definition default_headers : headers := setitem "Accept" "*/*" ∅.

(** A device that answers every request with the same status. *)
Definition answers (status : Z) (_ : list event) (_ : request)
  : outcome response :=
  Ok {| status_code := status; reason := "-"; text := "-" |}.

Definition close_fails (_ : list event) : option exn :=
  Some (TransportError "close").

Definition connect (status : Z) : Z -> port_field -> string -> string
                                  -> M (option response) :=
  connect via connection_info credentials true (TunnelPort None "127.0.0.1")
          default_headers (answers status).
Definition get := get device_name alias (answers 200).
Definition post := post device_name alias json_dumps dict2xml (answers 200).
Definition patch := patch device_name alias json_dumps dict2xml (answers 200).
Definition put := put device_name alias json_dumps dict2xml (answers 200).
Definition delete := delete device_name alias (answers 200).

(** The client as [__init__] leaves it. *)
Definition fresh : world :=
  {| self := {| Self._is_connected := false;
                Self.content_type := None;
                Self.base_url := None;
                Self.login_url := None;
                Self.session := None |};
     wire := [] |}.

Definition exploded_url : string :=
  "http://[0000:0000:0000:0000:0000:0000:0000:0001]:8080".

Definition probe : request :=
  {| method := GET;
     url := exploded_url +:+ "/api";
     data := None;
     request_headers := default_headers;
     request_auth := Some credentials;
     request_timeout := 30 |}.

Definition the_session : Session :=
  {| auth := Some credentials; session_headers := default_headers |}.

(** The client after a successful [connect()]. *)
Definition online : world :=
  {| self := {| Self._is_connected := true;
                Self.content_type := Some "json";
                Self.base_url := Some exploded_url;
                Self.login_url := Some (exploded_url +:+ "/api");
                Self.session := Some the_session |};
     wire := [Sent probe] |}.

Definition a_dict : list (string * pyvalue) := [("hostname", PyText "ce0")].

(** Other connection blocks: a host name beside an ip that is no address,
    an IPv4 ip with no port and no protocol, an empty block, a tunnel. *)
Definition by_host : connection_info_t :=
  {| ci_sshtunnel := None;
     ci_host := Some "ncs.example.com";
     ci_ip := Some (IpText "not an address");
     ci_port := Some (PortInt 8888);
     ci_protocol := Some "https" |}.

Definition by_ipv4 : connection_info_t :=
  {| ci_sshtunnel := None;
     ci_host := None;
     ci_ip := Some (IpText "127.0.0.1");
     ci_port := None;
     ci_protocol := None |}.

Definition no_target : connection_info_t :=
  {| ci_sshtunnel := None;
     ci_host := None;
     ci_ip := None;
     ci_port := None;
     ci_protocol := None |}.

Definition bad_ip : connection_info_t :=
  {| ci_sshtunnel := None;
     ci_host := None;
     ci_ip := Some (IpText "ncs.example.com");
     ci_port := None;
     ci_protocol := None |}.

Definition by_tunnel : connection_info_t :=
  {| ci_sshtunnel := Some tt;
     ci_host := Some "ncs.example.com";
     ci_ip := Some (IpText "127.0.0.1");
     ci_port := None;
     ci_protocol := None |}.

(** A transport that fails. *)
Definition refuses (_ : list event) (_ : request) : outcome response :=
  Raise (TransportError "connection refused").

Definition close_ok (_ : list event) : option exn := None.

End Testbed.

(** ** Proof tools *)

#[local] Arguments update : simpl never.
#[local] Arguments setitem : simpl never.
#[local] Arguments getitem : simpl never.
#[local] Arguments PyStr.lower : simpl never.
#[local] Arguments PyStr.contains : simpl never.
#[local] Arguments PyStr.of_int : simpl never.
#[local] Arguments String.eqb : simpl never.
#[local] Arguments String.append : simpl never.
#[local] Arguments accept3 : simpl never.

(** Runs a method on a world given by its fields. *)
Ltac run_verb :=
  unfold the_request, issued, get, post, patch, put, delete, connect,
    session_headers_update, session_request, check_status, attr, local, lift,
    bind, get_self, set_self, ret, raise, connected in *;
  cbn in *.

Ltac open_world w :=
  let c := fresh "c" in
  destruct w as [c ?]; destruct c; cbn in *; subst.

Ltac finish_sends send :=
  repeat match goal with
    | |- context [match ?hs with Some _ => _ | None => _ end] =>
        is_var hs; destruct hs; cbn
    | |- context [send ?t ?r] => destruct (send t r); cbn
    | |- context [negb ?c] => destruct c; cbn
    | |- context [String.eqb ?a ?b] => destruct (String.eqb a b); cbn
    end;
  rewrite ?drop_app_length; reflexivity.

(** ** The contract of the class

    The variables are those of the class; inside the section each method
    stands for the method of this instance. *)

Section Contract.

Variable device_name : string.
Variable alias : string.
Variable via : string.
Variable connection_info : connection_info_t.
Variable json_dumps : list (string * pyvalue) -> string.
Variable dict2xml : list (string * pyvalue) -> string.
Variable get_username_password : string * string.
Variable unicon_installed : bool.
Variable auto_tunnel_add : tunnel_result.
Variable default_headers : headers.
Variable send : list event -> request -> outcome response.
Variable close_session : list event -> option exn.

#[local] Abbreviation connect :=
  (connect via connection_info get_username_password unicon_installed
           auto_tunnel_add default_headers send).
#[local] Abbreviation disconnect := (disconnect close_session).
#[local] Abbreviation session_close := (session_close close_session).
#[local] Abbreviation host_from_connection_info :=
  (host_from_connection_info connection_info).
#[local] Abbreviation serialize := (serialize json_dumps dict2xml).
#[local] Abbreviation get := (get device_name alias send).
#[local] Abbreviation post := (post device_name alias json_dumps dict2xml send).
#[local] Abbreviation patch := (patch device_name alias json_dumps dict2xml send).
#[local] Abbreviation put := (put device_name alias json_dumps dict2xml send).
#[local] Abbreviation delete := (delete device_name alias send).

(** *** The header store *)

Lemma getitem_setitem_eq (k k' v : string) (h : headers) :
  PyStr.lower k = PyStr.lower k' -> getitem k (setitem k' v h) = Some v.
Proof.
  intros E. unfold getitem, setitem. rewrite E, lookup_insert_eq. reflexivity.
Qed.

Lemma getitem_setitem_ne (k k' v : string) (h : headers) :
  PyStr.lower k <> PyStr.lower k' -> getitem k (setitem k' v h) = getitem k h.
Proof.
  intros E. unfold getitem, setitem. rewrite lookup_insert_ne; [reflexivity|].
  intros E'. apply E. now symmetry.
Qed.

Lemma getitem_update_other (name : string) (d : list (string * string))
    (h : headers) :
  overrides name (Some d) = false -> getitem name (update d h) = getitem name h.
Proof.
  unfold overrides, update. revert h.
  induction d as [|[k v] d IH]; intros h Hd; [reflexivity|].
  cbn in Hd. apply orb_false_iff in Hd as [Hk Hd]. cbn.
  rewrite IH by exact Hd.
  apply getitem_setitem_ne. intros E. rewrite E, String.eqb_refl in Hk.
  discriminate.
Qed.

Lemma getitem_merged (name : string) (negotiated : list (string * string))
    (hs : option (list (string * string))) (h : headers) :
  overrides name hs = false ->
  getitem name (merged negotiated hs h) = getitem name (update negotiated h).
Proof.
  destruct hs as [d|]; intros H; [|reflexivity].
  now apply getitem_update_other.
Qed.

(** The caller's headers are written last: a key of theirs is sent with
    their value. *)
Lemma getitem_merged_last (k v : string) (negotiated d : list (string * string))
    (h : headers) :
  getitem k (merged negotiated (Some (d ++ [(k, v)])) h) = Some v.
Proof.
  unfold merged, update. rewrite fold_left_app. cbn.
  now apply getitem_setitem_eq.
Qed.

(** *** What each verb sends *)

Lemma lstrip_app (ws rest : string) :
  all_space ws = true -> no_leading_space rest = true ->
  PyStr.lstrip (ws +:+ rest) = rest.
Proof.
  intros Hws Hrest. induction ws as [|c ws IH].
  - change ("" +:+ rest) with rest.
    destruct rest as [|c r]; [reflexivity|].
    cbn [PyStr.lstrip]. unfold no_leading_space in Hrest.
    destruct (PyStr.isspace c); [discriminate|reflexivity].
  - unfold all_space in *. cbn [all_chars] in Hws.
    apply andb_true_iff in Hws as [Hc Hws].
    change (String c ws +:+ rest) with (String c (ws +:+ rest)).
    cbn [PyStr.lstrip]. rewrite Hc. now apply IH.
Qed.

Lemma get_sends (api_url : string) (content_type : option string)
    (hs : option (list (string * string))) (expected : codes) (timeout : Z)
    (w : world) (b ct : string) (s : Session) :
  connected (self w) = true ->
  Self.base_url (self w) = Some b ->
  Self.session (self w) = Some s ->
  match content_type with Some c => Some c | None => Self.content_type (self w) end
    = Some ct ->
  the_request (get api_url content_type hs expected timeout) w =
    Some {| method := GET; url := b +:+ api_url; data := None;
            request_headers :=
              merged [("Accept", by_format ct accept3 ct)] hs (session_headers s);
            request_auth := auth s;
            request_timeout := timeout |}.
Proof.
  intros Hc Hb Hs Hct. open_world w. run_verb.
  unfold by_format, accept3, merged.
  destruct content_type as [c|]; cbn in *; subst; cbn;
    try (injection Hct as ->); finish_sends send.
Qed.

Lemma delete_sends (api_url : string) (content_type : option string)
    (hs : option (list (string * string))) (expected : codes) (timeout : Z)
    (w : world) (b ct : string) (s : Session) :
  connected (self w) = true ->
  Self.base_url (self w) = Some b ->
  Self.session (self w) = Some s ->
  match content_type with Some c => Some c | None => Self.content_type (self w) end
    = Some ct ->
  the_request (delete api_url content_type hs expected timeout) w =
    Some {| method := DELETE; url := b +:+ api_url; data := None;
            request_headers :=
              merged [("Accept",
                       by_format ct (fun fmt => "application/vnd.yang.data+" +:+ fmt) ct)]
                     hs (session_headers s);
            request_auth := auth s;
            request_timeout := timeout |}.
Proof.
  intros Hc Hb Hs Hct. open_world w. run_verb.
  unfold by_format, merged.
  destruct content_type as [c|]; cbn in *; subst; cbn;
    try (injection Hct as ->); finish_sends send.
Qed.

Lemma post_sends (api_url : string) (p : payload) (content_type : option string)
    (hs : option (list (string * string))) (expected : codes) (timeout : Z)
    (w : world) (b ct : string) (s : Session) (rp : payload) :
  connected (self w) = true ->
  Self.base_url (self w) = Some b ->
  Self.session (self w) = Some s ->
  serialize p content_type = Ok rp ->
  sniff p content_type = Ok ct ->
  the_request (post api_url p content_type hs expected timeout) w =
    Some {| method := POST; url := b +:+ api_url; data := Some rp;
            request_headers :=
              merged [("Content-type", by_format ct (url_content_type api_url) ct);
                      ("Accept", by_format ct accept3 ct)] hs (session_headers s);
            request_auth := auth s;
            request_timeout := timeout |}.
Proof.
  intros Hc Hb Hs Hp Hct. open_world w. run_verb. rewrite Hp, Hct. cbn.
  unfold by_format, url_content_type, accept3, merged.
  finish_sends send.
Qed.

Lemma patch_sends (api_url : string) (p : payload) (content_type : option string)
    (hs : option (list (string * string))) (expected : codes) (timeout : Z)
    (w : world) (b ct : string) (s : Session) (rp : payload) :
  connected (self w) = true ->
  Self.base_url (self w) = Some b ->
  Self.session (self w) = Some s ->
  serialize p content_type = Ok rp ->
  sniff p content_type = Ok ct ->
  the_request (patch api_url p content_type hs expected timeout) w =
    Some {| method := PATCH; url := b +:+ api_url; data := Some rp;
            request_headers :=
              merged [("Content-type",
                       by_format ct (fun fmt => "application/vnd.yang.data+" +:+ fmt) ct);
                      ("Accept", by_format ct accept3 ct)] hs (session_headers s);
            request_auth := auth s;
            request_timeout := timeout |}.
Proof.
  intros Hc Hb Hs Hp Hct. open_world w. run_verb. rewrite Hp, Hct. cbn.
  unfold by_format, accept3, merged.
  finish_sends send.
Qed.

Lemma put_sends (api_url : string) (p : payload) (content_type : option string)
    (hs : option (list (string * string))) (expected : codes) (timeout : Z)
    (w : world) (b ct : string) (s : Session) (rp : payload) :
  connected (self w) = true ->
  Self.base_url (self w) = Some b ->
  Self.session (self w) = Some s ->
  serialize p content_type = Ok rp ->
  sniff p content_type = Ok ct ->
  the_request (put api_url p content_type hs expected timeout) w =
    Some {| method := PUT; url := b +:+ api_url; data := Some rp;
            request_headers :=
              merged [("Content-type",
                       by_format ct (fun fmt => "application/vnd.yang.data+" +:+ fmt) ct);
                      ("Accept", by_format ct accept3 ct)] hs (session_headers s);
            request_auth := auth s;
            request_timeout := timeout |}.
Proof.
  intros Hc Hb Hs Hp Hct. open_world w. run_verb. rewrite Hp, Hct. cbn.
  unfold by_format, accept3, merged.
  finish_sends send.
Qed.

(** A resolved content type means a payload that passed the assertion. *)
Lemma sniff_ok_serialize_ok (p : payload) (content_type : option string)
    (ct : string) :
  sniff p content_type = Ok ct -> exists rp, serialize p content_type = Ok rp.
Proof.
  destruct p as [t|items], content_type as [c|]; cbn; intros H;
    try discriminate; eauto.
  destruct (String.eqb c "json"); eauto.
  destruct (String.eqb c "xml"); eauto.
Qed.

Lemma negotiated_content_type (c a : string)
    (hs : option (list (string * string))) (h : headers) :
  overrides "Content-type" hs = false ->
  getitem "Content-type" (merged [("Content-type", c); ("Accept", a)] hs h)
  = Some c.
Proof.
  intros H. rewrite getitem_merged by exact H.
  unfold update. cbn.
  rewrite getitem_setitem_ne by (vm_compute; discriminate).
  now apply getitem_setitem_eq.
Qed.

Lemma negotiated_accept (c a : string)
    (hs : option (list (string * string))) (h : headers) :
  overrides "Accept" hs = false ->
  getitem "Accept" (merged [("Content-type", c); ("Accept", a)] hs h) = Some a.
Proof.
  intros H. rewrite getitem_merged by exact H.
  unfold update. cbn. now apply getitem_setitem_eq.
Qed.

Lemma negotiated_accept_only (a : string)
    (hs : option (list (string * string))) (h : headers) :
  overrides "Accept" hs = false ->
  getitem "Accept" (merged [("Accept", a)] hs h) = Some a.
Proof.
  intros H. rewrite getitem_merged by exact H.
  unfold update. cbn. now apply getitem_setitem_eq.
Qed.

Lemma by_format_fmt {A} (ct fmt : string) (f : string -> A) (other : A) :
  PyStr.lower ct = fmt -> fmt = "json" \/ fmt = "xml" ->
  by_format ct f other = f fmt.
Proof.
  intros E [H|H]; unfold by_format; rewrite E, H; reflexivity.
Qed.

Lemma by_format_other {A} (ct : string) (f : string -> A) (other : A) :
  PyStr.lower ct <> "json" -> PyStr.lower ct <> "xml" ->
  by_format ct f other = other.
Proof.
  intros Hj Hx. unfold by_format.
  destruct (String.eqb_spec (PyStr.lower ct) "json"); [contradiction|].
  destruct (String.eqb_spec (PyStr.lower ct) "xml"); [contradiction|].
  reflexivity.
Qed.

(** *** Headers and payload of the verbs *)

(** C5, as the code has it. With the content type resolved to json or xml
    and no Content-type among the caller's headers: [post] sends the
    Content-type chosen by the path (operation for a path with
    /_operations, else datastore for a path with /api/, else data), and
    [patch] and [put] send the data type whatever the path. *)
Theorem content_type_header_of_writes
    (api_url : string) (p : payload) (content_type : option string)
    (hs : option (list (string * string))) (expected : codes) (timeout : Z)
    (w : world) (b ct fmt : string) (s : Session) :
  connected (self w) = true ->
  Self.base_url (self w) = Some b ->
  Self.session (self w) = Some s ->
  sniff p content_type = Ok ct ->
  PyStr.lower ct = fmt ->
  fmt = "json" \/ fmt = "xml" ->
  overrides "Content-type" hs = false ->
  sent_header "Content-type" (post api_url p content_type hs expected timeout) w
  = Some (if PyStr.contains "/_operations" api_url then
            "application/vnd.yang.operation+" +:+ fmt
          else if PyStr.contains "/api/" api_url then
            "application/vnd.yang.datastore+" +:+ fmt
          else "application/vnd.yang.data+" +:+ fmt)
  /\ sent_header "Content-type" (patch api_url p content_type hs expected timeout) w
     = Some ("application/vnd.yang.data+" +:+ fmt)
  /\ sent_header "Content-type" (put api_url p content_type hs expected timeout) w
     = Some ("application/vnd.yang.data+" +:+ fmt).
Proof.
  intros Hc Hb Hs Hct Hl Hf Ho.
  destruct (sniff_ok_serialize_ok _ _ _ Hct) as [rp Hp].
  unfold sent_header.
  rewrite (post_sends _ _ _ _ _ _ _ _ _ _ _ Hc Hb Hs Hp Hct).
  rewrite (patch_sends _ _ _ _ _ _ _ _ _ _ _ Hc Hb Hs Hp Hct).
  rewrite (put_sends _ _ _ _ _ _ _ _ _ _ _ Hc Hb Hs Hp Hct).
  cbn [request_headers].
  rewrite !negotiated_content_type by exact Ho.
  rewrite !(by_format_fmt _ _ _ _ Hl Hf).
  repeat split.
Qed.

(** C6, as the code has it. With no Accept among the caller's headers and
    the content type resolved to [ct]: when [ct] lower-cased is json or
    xml, [get], [post], [patch] and [put] send the three media types with
    that suffix and [delete] sends vnd.yang.data alone; any other [ct] is
    sent as it is by all five. *)
Theorem accept_header_of_verbs
    (api_url : string) (p : payload) (content_type content_type' : option string)
    (hs : option (list (string * string))) (expected : codes) (timeout : Z)
    (w : world) (b ct : string) (s : Session) :
  connected (self w) = true ->
  Self.base_url (self w) = Some b ->
  Self.session (self w) = Some s ->
  match content_type with Some c => Some c | None => Self.content_type (self w) end
    = Some ct ->
  sniff p content_type' = Ok ct ->
  overrides "Accept" hs = false ->
  let accept_of m := sent_header "Accept" m w in
  (forall fmt, PyStr.lower ct = fmt -> fmt = "json" \/ fmt = "xml" ->
     let three := "application/vnd.yang.data+" +:+ fmt
                  +:+ ", application/vnd.yang.collection+" +:+ fmt
                  +:+ ", application/vnd.yang.datastore+" +:+ fmt in
     accept_of (get api_url content_type hs expected timeout) = Some three
     /\ accept_of (post api_url p content_type' hs expected timeout) = Some three
     /\ accept_of (patch api_url p content_type' hs expected timeout) = Some three
     /\ accept_of (put api_url p content_type' hs expected timeout) = Some three
     /\ accept_of (delete api_url content_type hs expected timeout)
        = Some ("application/vnd.yang.data+" +:+ fmt))
  /\ (PyStr.lower ct <> "json" -> PyStr.lower ct <> "xml" ->
      accept_of (get api_url content_type hs expected timeout) = Some ct
      /\ accept_of (post api_url p content_type' hs expected timeout) = Some ct
      /\ accept_of (patch api_url p content_type' hs expected timeout) = Some ct
      /\ accept_of (put api_url p content_type' hs expected timeout) = Some ct
      /\ accept_of (delete api_url content_type hs expected timeout) = Some ct).
Proof.
  intros Hc Hb Hs Hg Hct Ho accept_of.
  destruct (sniff_ok_serialize_ok _ _ _ Hct) as [rp Hp].
  subst accept_of. unfold sent_header.
  rewrite (get_sends _ _ _ _ _ _ _ _ _ Hc Hb Hs Hg).
  rewrite (delete_sends _ _ _ _ _ _ _ _ _ Hc Hb Hs Hg).
  rewrite (post_sends _ _ _ _ _ _ _ _ _ _ _ Hc Hb Hs Hp Hct).
  rewrite (patch_sends _ _ _ _ _ _ _ _ _ _ _ Hc Hb Hs Hp Hct).
  rewrite (put_sends _ _ _ _ _ _ _ _ _ _ _ Hc Hb Hs Hp Hct).
  cbn [request_headers].
  rewrite !negotiated_accept, !negotiated_accept_only by exact Ho.
  split.
  - intros fmt Hl Hf. cbv zeta.
    rewrite !(by_format_fmt _ _ _ _ Hl Hf). repeat split.
  - intros Hj Hx. rewrite !(by_format_other _ _ _ Hj Hx). repeat split.
Qed.

(** What [sniff] gives: on a string made of whitespace and then text, xml
    when the text starts with [<] and json otherwise; the content type
    that is passed, whatever the payload. *)
Lemma sniff_resolution :
  (forall ws rest : string,
     all_space ws = true -> no_leading_space rest = true ->
     sniff (PStr (ws +:+ rest)) None
     = Ok (if PyStr.startswith "<" rest then "xml" else "json"))
  /\ (forall (p : payload) (c : string), sniff p (Some c) = Ok c).
Proof.
  split.
  - intros ws rest Hws Hrest. unfold sniff. rewrite lstrip_app by assumption.
    destruct (PyStr.startswith _ rest); reflexivity.
  - reflexivity.
Qed.

(** C7. On a connected client, with no Accept and no Content-type among
    the caller's headers, and a string payload made of whitespace and then
    text. Called without content type, [post], [patch] and [put] send the
    xml media types when the text starts with [<] and the json ones
    otherwise. Called with a content type, on the same payload, they send
    what that content type selects (json or xml by its lower-cased
    spelling, else the content type as it is), whatever the payload starts
    with. *)
Theorem content_type_sniffed_from_payload
    (api_url ws rest c : string) (hs : option (list (string * string)))
    (expected : codes) (timeout : Z) (w : world) (b : string) (s : Session) :
  connected (self w) = true ->
  Self.base_url (self w) = Some b ->
  Self.session (self w) = Some s ->
  all_space ws = true ->
  no_leading_space rest = true ->
  overrides "Accept" hs = false ->
  overrides "Content-type" hs = false ->
  let t := ws +:+ rest in
  let sniffed := if PyStr.startswith "<" rest then "xml" else "json" in
  let three fmt := "application/vnd.yang.data+" +:+ fmt
                   +:+ ", application/vnd.yang.collection+" +:+ fmt
                   +:+ ", application/vnd.yang.datastore+" +:+ fmt in
  let by_path fmt :=
    if PyStr.contains "/_operations" api_url then
      "application/vnd.yang.operation+" +:+ fmt
    else if PyStr.contains "/api/" api_url then
      "application/vnd.yang.datastore+" +:+ fmt
    else "application/vnd.yang.data+" +:+ fmt in
  let plain fmt := "application/vnd.yang.data+" +:+ fmt in
  let selected (f : string -> string) :=
    if String.eqb (PyStr.lower c) "json" then f "json"
    else if String.eqb (PyStr.lower c) "xml" then f "xml"
    else c in
  let sends (m : M response) (content_type accept : string) :=
    sent_header "Content-type" m w = Some content_type
    /\ sent_header "Accept" m w = Some accept
    /\ sent_data m w = Some (PStr t) in
  (sends (post api_url (PStr t) None hs expected timeout)
         (by_path sniffed) (three sniffed)
   /\ sends (patch api_url (PStr t) None hs expected timeout)
            (plain sniffed) (three sniffed)
   /\ sends (put api_url (PStr t) None hs expected timeout)
            (plain sniffed) (three sniffed))
  /\ (sends (post api_url (PStr t) (Some c) hs expected timeout)
            (selected by_path) (selected three)
      /\ sends (patch api_url (PStr t) (Some c) hs expected timeout)
               (selected plain) (selected three)
      /\ sends (put api_url (PStr t) (Some c) hs expected timeout)
               (selected plain) (selected three)).
Proof.
  intros Hc Hb Hs Hws Hrest Ha Hct t sniffed three by_path plain selected sends.
  assert (Hsniff : sniff (PStr t) None = Ok sniffed)
    by (apply (proj1 sniff_resolution); assumption).
  assert (Hgiven : sniff (PStr t) (Some c) = Ok c) by reflexivity.
  assert (Hp : forall o, serialize (PStr t) o = Ok (PStr t)) by reflexivity.
  assert (Hfmt : forall f : string -> string, by_format sniffed f sniffed = f sniffed).
  { intros f. subst sniffed.
    destruct (PyStr.startswith _ rest); reflexivity. }
  subst sends. cbv beta. unfold sent_header, sent_data.
  rewrite !(post_sends _ _ _ _ _ _ _ _ _ _ _ Hc Hb Hs (Hp _) Hsniff).
  rewrite !(patch_sends _ _ _ _ _ _ _ _ _ _ _ Hc Hb Hs (Hp _) Hsniff).
  rewrite !(put_sends _ _ _ _ _ _ _ _ _ _ _ Hc Hb Hs (Hp _) Hsniff).
  rewrite !(post_sends _ _ _ _ _ _ _ _ _ _ _ Hc Hb Hs (Hp _) Hgiven).
  rewrite !(patch_sends _ _ _ _ _ _ _ _ _ _ _ Hc Hb Hs (Hp _) Hgiven).
  rewrite !(put_sends _ _ _ _ _ _ _ _ _ _ _ Hc Hb Hs (Hp _) Hgiven).
  cbn [request_headers].
  rewrite !negotiated_content_type by exact Hct.
  rewrite !negotiated_accept by exact Ha.
  rewrite !Hfmt.
  repeat split.
Qed.

(** Called without content type on a string, [post], [patch] and [put] do
    what they do when called with the sniffed one. *)
Lemma sniffed_call_is_explicit_call
    (api_url t : string) (hs : option (list (string * string)))
    (expected : codes) (timeout : Z) (w : world) :
  let ct := if PyStr.startswith "<" (PyStr.lstrip t) then "xml" else "json" in
  post api_url (PStr t) None hs expected timeout w
  = post api_url (PStr t) (Some ct) hs expected timeout w
  /\ patch api_url (PStr t) None hs expected timeout w
     = patch api_url (PStr t) (Some ct) hs expected timeout w
  /\ put api_url (PStr t) None hs expected timeout w
     = put api_url (PStr t) (Some ct) hs expected timeout w.
Proof.
  intros ct. subst ct.
  unfold post, patch, put. cbn [serialize sniff].
  destruct (PyStr.startswith _ (PyStr.lstrip t)); repeat split.
Qed.

(** C8. On a connected client, [post], [patch] and [put] given a dict
    and no content type raise the assertion error and hand back the world
    they were given: nothing serialized, no header written, nothing
    sent. *)
Theorem dict_without_content_type_fails
    (api_url : string) (items : list (string * pyvalue))
    (hs : option (list (string * string))) (expected : codes) (timeout : Z)
    (w : world) (b : string) :
  connected (self w) = true ->
  Self.base_url (self w) = Some b ->
  let e : exn :=
    AssertionError "content_type parameter required when passing dict" in
  post api_url (PDict items) None hs expected timeout w = (Raise e, w)
  /\ patch api_url (PDict items) None hs expected timeout w = (Raise e, w)
  /\ put api_url (PDict items) None hs expected timeout w = (Raise e, w).
Proof.
  intros Hc Hb e. open_world w. run_verb. repeat split.
Qed.

(** C10. On a connected client, a dict payload with content type [ct] is
    sent as the JSON text when [ct] is exactly json, as the XML text when
    it is exactly xml, and as the dict itself for any other [ct]; the
    headers follow [ct] lower-cased all the same, so that a [ct] such as
    JSON sends the dict unserialized under the json media types. *)
Theorem dict_serialized_on_exact_content_type
    (api_url : string) (items : list (string * pyvalue)) (ct : string)
    (hs : option (list (string * string))) (expected : codes) (timeout : Z)
    (w : world) (b : string) (s : Session) :
  connected (self w) = true ->
  Self.base_url (self w) = Some b ->
  Self.session (self w) = Some s ->
  let body := if String.eqb ct "json" then PStr (json_dumps items)
              else if String.eqb ct "xml" then PStr (dict2xml items)
              else PDict items in
  (sent_data (post api_url (PDict items) (Some ct) hs expected timeout) w = Some body
   /\ sent_data (patch api_url (PDict items) (Some ct) hs expected timeout) w = Some body
   /\ sent_data (put api_url (PDict items) (Some ct) hs expected timeout) w = Some body)
  /\ (forall fmt, PyStr.lower ct = fmt -> fmt = "json" \/ fmt = "xml" ->
      overrides "Content-type" hs = false ->
      sent_header "Content-type"
        (put api_url (PDict items) (Some ct) hs expected timeout) w
      = Some ("application/vnd.yang.data+" +:+ fmt)).
Proof.
  intros Hc Hb Hs body.
  assert (Hp : serialize (PDict items) (Some ct) = Ok body).
  { subst body. cbn. destruct (String.eqb ct "json"); [reflexivity|].
    now destruct (String.eqb ct "xml"). }
  assert (Hct : sniff (PDict items) (Some ct) = Ok ct) by reflexivity.
  unfold sent_data, sent_header.
  rewrite (post_sends _ _ _ _ _ _ _ _ _ _ _ Hc Hb Hs Hp Hct).
  rewrite (patch_sends _ _ _ _ _ _ _ _ _ _ _ Hc Hb Hs Hp Hct).
  rewrite (put_sends _ _ _ _ _ _ _ _ _ _ _ Hc Hb Hs Hp Hct).
  cbn [data request_headers]. split; [repeat split|].
  intros fmt Hl Hf Ho. rewrite negotiated_content_type by exact Ho.
  now rewrite (by_format_fmt _ _ _ _ Hl Hf).
Qed.

(** *** Connection state *)

(** C1. Called on a client that is not connected, each of [get],
    [post], [patch], [put] and [delete] raises the exception whose
    message names the device and the alias, and hands back the world it
    was given: nothing was sent and no attribute was written. *)
Theorem verbs_need_connection
    (api_url : string) (p : payload) (content_type : option string)
    (hs : option (list (string * string))) (expected : codes) (timeout : Z)
    (w : world) :
  connected (self w) = false ->
  let e : exn :=
    PyException ("'" +:+ device_name +:+ "' is not connected for alias '"
                 +:+ alias +:+ "'") in
  get api_url content_type hs expected timeout w = (Raise e, w)
  /\ post api_url p content_type hs expected timeout w = (Raise e, w)
  /\ patch api_url p content_type hs expected timeout w = (Raise e, w)
  /\ put api_url p content_type hs expected timeout w = (Raise e, w)
  /\ delete api_url content_type hs expected timeout w = (Raise e, w).
Proof.
  intros Hc e.
  unfold get, post, patch, put, delete, bind, get_self.
  rewrite Hc. simpl. repeat split.
Qed.

(** C4. [connect] on a connected client returns at once: same world, so
    no probe and no attribute written. *)
Theorem connect_when_connected
    (timeout : Z) (port : port_field) (protocol dct : string) (w : world) :
  connected (self w) = true ->
  connect timeout port protocol dct w = (Ok None, w).
Proof.
  intros Hc. unfold connect, bind, get_self. now rewrite Hc.
Qed.

(** C3. After [disconnect] the client is not connected, whatever the
    world it ran in: session missing, close raising or close fine. *)
Theorem disconnect_always_disconnects (w : world) :
  connected (self (snd (disconnect w))) = false.
Proof.
  unfold disconnect, try_finally.
  destruct (session_close w) as [r w']. reflexivity.
Qed.

(** C2. On a client that is not connected, with the host taken from the
    connection block: when the probe (a GET on base URL + /api) is
    answered with a status other than 200, [connect] raises the
    RequestException whose message carries host, port, the status received
    and 200, the client is still not connected, and the probe is the only
    request that went out. *)
Theorem connect_checks_probe_status
    (timeout : Z) (port : port_field) (protocol dct : string) (w : world)
    (host : string) (resp : response) :
  connected (self w) = false ->
  ci_sshtunnel connection_info = None ->
  host_from_connection_info = Ok host ->
  let port' := port_str (match ci_port connection_info with
                         | Some p => p
                         | None => port
                         end) in
  let protocol' := match ci_protocol connection_info with
                   | Some p => p
                   | None => protocol
                   end in
  let base := protocol' +:+ "://" +:+ host +:+ ":" +:+ port' in
  let probe := {| method := GET;
                  url := base +:+ "/api";
                  data := None;
                  request_headers := default_headers;
                  request_auth := Some get_username_password;
                  request_timeout := timeout |} in
  send (wire w) probe = Ok resp ->
  status_code resp <> 200 ->
  fst (connect timeout port protocol dct w) =
    Raise (RequestException
             ("Connection to '" +:+ host +:+ ":" +:+ port'
              +:+ "' has returned the following code '"
              +:+ PyStr.of_int (status_code resp)
              +:+ "', instead of the expected status code '200'"))
  /\ connected (self (snd (connect timeout port protocol dct w))) = false
  /\ issued (connect timeout port protocol dct) w = [Sent probe].
Proof.
  intros Hc Ht Hh port' protocol' base probe Hsend Hstatus.
  subst port' protocol' base probe. revert Hsend.
  open_world w. run_verb. rewrite Ht, Hh. cbn.
  destruct get_username_password as [username password]. cbn.
  intros ->. cbn.
  destruct (Z.eqb_spec (status_code resp) requests_codes.ok) as [E|_];
    [contradiction|]. cbn.
  rewrite drop_app_length. repeat split.
Qed.

(** The exploded form is written with lower-case hexadecimal digits. *)
Lemma hex_digit_shape (v : N) :
  (v < 16)%N ->
  is_hex_or_colon (if (v <? 10)%N then ascii_of_N (48 + v)
                   else ascii_of_N (87 + v)) = true.
Proof.
  intros H. destruct v as [|p]; [reflexivity|].
  do 4 (try (destruct p as [p|p|]; try reflexivity)); lia.
Qed.

Lemma land_15_bound (x : N) : (N.land x 15 < 16)%N.
Proof.
  change 15%N with (N.ones 4). rewrite N.land_ones.
  apply N.mod_lt. discriminate.
Qed.

Lemma hex4_shape (n : N) : all_chars is_hex_or_colon (IpAddress.hex4 n) = true.
Proof.
  unfold IpAddress.hex4. cbn [all_chars].
  rewrite !hex_digit_shape by apply land_15_bound. reflexivity.
Qed.

Lemma v6_exploded_shape (a : IpAddress.IPv6Address) :
  String.length (IpAddress.v6_exploded a) = 39%nat
  /\ all_chars is_hex_or_colon (IpAddress.v6_exploded a) = true.
Proof.
  split; [reflexivity|].
  assert (Happ : forall x y,
            all_chars is_hex_or_colon x = true ->
            all_chars is_hex_or_colon y = true ->
            all_chars is_hex_or_colon (x +:+ ":" +:+ y) = true).
  { intros x y Hx Hy. induction x as [|c x IH].
    - change ("" +:+ ":" +:+ y) with (String ":" y). cbn [all_chars].
      rewrite Hy. reflexivity.
    - change (String c x +:+ ":" +:+ y) with (String c (x +:+ ":" +:+ y)).
      cbn [all_chars] in *. apply andb_true_iff in Hx as [Hc Hx].
      rewrite Hc, IH by exact Hx. reflexivity. }
  unfold IpAddress.v6_exploded. cbv zeta. cbn [PyStr.join].
  repeat (apply Happ; [apply hex4_shape|]). apply hex4_shape.
Qed.

(** C9, as the code has it. On a client that is not connected, with no
    tunnel and no host in the connection block and an ip that is an IPv6
    address: [connect] leaves as base URL protocol://[h]:port, where h is
    the exploded form of the address, the eight groups of four hexadecimal
    digits. *)
Theorem connect_ipv6_base_url
    (timeout : Z) (port : port_field) (protocol dct : string) (w : world)
    (ip : ip_field) (a : IpAddress.IPv6Address) :
  connected (self w) = false ->
  ci_sshtunnel connection_info = None ->
  ci_host connection_info = None ->
  ci_ip connection_info = Some ip ->
  match ip with
  | IpObject x => Some x
  | IpText t => IpAddress.ip_address t
  end = Some (IpAddress.V6 a) ->
  let port' := port_str (match ci_port connection_info with
                         | Some p => p
                         | None => port
                         end) in
  let protocol' := match ci_protocol connection_info with
                   | Some p => p
                   | None => protocol
                   end in
  Self.base_url (self (snd (connect timeout port protocol dct w)))
  = Some (protocol' +:+ "://" +:+ ("[" +:+ IpAddress.v6_exploded a +:+ "]")
          +:+ ":" +:+ port')
  /\ String.length (IpAddress.v6_exploded a) = 39%nat
  /\ all_chars is_hex_or_colon (IpAddress.v6_exploded a) = true.
Proof.
  intros Hc Ht Hh Hi Ha port' protocol'. subst port' protocol'.
  split.
  - open_world w. run_verb. unfold host_from_connection_info.
    rewrite Ht, Hh, Hi. cbn. rewrite Ha. cbn.
    destruct get_username_password as [username password]. cbn.
    match goal with |- context [send ?t ?r] => destruct (send t r) as [resp|e] end;
      cbn; [|reflexivity].
    now destruct (status_code resp =? requests_codes.ok).
  - apply v6_exploded_shape.
Qed.

(** The flag is written in one place: a call that starts not connected
    ends connected exactly when it returns a response, and that response
    has status 200. *)
Lemma connect_sets_flag_on_200_only
    (timeout : Z) (port : port_field) (protocol dct : string) (w : world) :
  connected (self w) = false ->
  connected (self (snd (connect timeout port protocol dct w))) = true <->
  exists resp, fst (connect timeout port protocol dct w) = Ok (Some resp)
               /\ status_code resp = 200.
Proof.
  intros Hc. open_world w. run_verb.
  destruct (ci_sshtunnel connection_info); cbn.
  - destruct unicon_installed; cbn.
    + destruct auto_tunnel_add as [msg|[tp|] tip]; cbn;
        try destruct (tp =? 0); cbn;
        (split; [discriminate | intros (r & E & _); discriminate]).
    + split; [discriminate | intros (r & E & _); discriminate].
  - destruct host_from_connection_info as [host|e]; cbn.
    + destruct get_username_password as [username password]. cbn.
      match goal with |- context [send ?t ?r] => destruct (send t r) as [resp|e] end;
        cbn.
      * destruct (Z.eqb_spec (status_code resp) requests_codes.ok) as [E|E]; cbn.
        -- split; [intros _; now exists resp | reflexivity].
        -- split; [discriminate | intros (r & E' & _); discriminate].
      * split; [discriminate | intros (r & E & _); discriminate].
    + split; [discriminate | intros (r & E & _); discriminate].
Qed.

(** Through a tunnel [connect] never reaches the probe: every outcome of
    the tunnel branch raises, the last one because [host] is left
    unbound. *)
Lemma connect_tunnel_never_probes
    (timeout : Z) (port : port_field) (protocol dct : string) (w : world) :
  connected (self w) = false ->
  ci_sshtunnel connection_info <> None ->
  issued (connect timeout port protocol dct) w = []
  /\ exists e, fst (connect timeout port protocol dct w) = Raise e.
Proof.
  intros Hc Ht. open_world w. run_verb.
  destruct (ci_sshtunnel connection_info); [|contradiction]. cbn.
  destruct unicon_installed; cbn.
  - destruct auto_tunnel_add as [msg|[tp|] tip]; cbn;
      try destruct (tp =? 0); cbn; rewrite drop_all; eauto.
  - rewrite drop_all; eauto.
Qed.

(** The exception of a failing close still reaches the caller. *)
Lemma disconnect_close_fails (w : world) (s : Session) (e : exn) :
  Self.session (self w) = Some s ->
  close_session (wire w) = Some e ->
  fst (disconnect w) = Raise e
  /\ issued disconnect w = [Closed].
Proof.
  intros Hs He.
  unfold issued, disconnect, try_finally, session_close, attr, bind, get_self.
  rewrite Hs. cbn. rewrite He. cbn. split; [reflexivity|].
  now rewrite drop_app_length.
Qed.

End Contract.



(** [online] is what [connect()] with the defaults makes of [fresh]. *)
Lemma testbed_connects :
  Testbed.connect 200 default_timeout default_port default_protocol
                  default_content_type Testbed.fresh
  = (Ok (Some {| status_code := 200; reason := "-"; text := "-" |}),
     Testbed.online).
Proof. reflexivity. Qed.

(** ** The theorems at the testbed *)

(** C1 on the client before [connect]. *)
Lemma verbs_need_connection_witness :
  connected (self Testbed.fresh) = false
  /\ Testbed.get "/api/running/devices" None None get_default_codes 30
       Testbed.fresh
     = (Raise (PyException "'ncs' is not connected for alias 'rest'"),
        Testbed.fresh)
  /\ Testbed.post "/api/running/devices" (PStr "{}") None None
       write_default_codes 30 Testbed.fresh
     = (Raise (PyException "'ncs' is not connected for alias 'rest'"),
        Testbed.fresh).
Proof.
  split; [reflexivity|].
  pose proof (verbs_need_connection Testbed.device_name Testbed.alias
                Testbed.json_dumps Testbed.dict2xml (Testbed.answers 200)
                "/api/running/devices" (PStr "{}") None None
                write_default_codes 30 Testbed.fresh eq_refl) as H.
  cbv zeta in H. destruct H as (_ & Hpost & _).
  split; [|exact Hpost].
  exact (proj1 (verbs_need_connection Testbed.device_name Testbed.alias
                  Testbed.json_dumps Testbed.dict2xml (Testbed.answers 200)
                  "/api/running/devices" (PStr "{}") None None
                  get_default_codes 30 Testbed.fresh eq_refl)).
Defined.

(** C2 at a device that answers the probe with 201. *)
Lemma connect_checks_probe_status_witness :
  fst (Testbed.connect 201 30 default_port default_protocol "json" Testbed.fresh)
  = Raise (RequestException
             (("Connection to '[0000:0000:0000:0000:0000:0000:0000:0001]:8080' "
               +:+ "has returned the following code '201', ")
              +:+ "instead of the expected status code '200'"))
  /\ connected (self (snd (Testbed.connect 201 30 default_port default_protocol
                             "json" Testbed.fresh))) = false.
Proof.
  pose proof (connect_checks_probe_status Testbed.via Testbed.connection_info
                Testbed.credentials true (TunnelPort None "127.0.0.1")
                Testbed.default_headers (Testbed.answers 201)
                30 default_port default_protocol "json" Testbed.fresh
                "[0000:0000:0000:0000:0000:0000:0000:0001]"
                {| status_code := 201; reason := "-"; text := "-" |}
                eq_refl eq_refl eq_refl) as H.
  cbv zeta in H.
  destruct (H eq_refl ltac:(discriminate)) as (Hraise & Hflag & _).
  split; [exact Hraise | exact Hflag].
Defined.

(** C4 on the connected client. *)
Lemma connect_when_connected_witness :
  Testbed.connect 200 30 default_port default_protocol "xml" Testbed.online
  = (Ok None, Testbed.online).
Proof.
  exact (connect_when_connected Testbed.via Testbed.connection_info
           Testbed.credentials true (TunnelPort None "127.0.0.1")
           Testbed.default_headers (Testbed.answers 200)
           30 default_port default_protocol "xml" Testbed.online eq_refl).
Defined.

(** C5 as stated fails on [put]: to a path under /api/ it sends the data
    type where the specification has the datastore type. *)
Lemma put_api_path_sends_data_type :
  sent_header "Content-type"
    (Testbed.put "/api/running/devices" (PStr "{}") (Some "json") None
                 write_default_codes 30) Testbed.online
  = Some "application/vnd.yang.data+json"
  /\ spec_content_type_header "/api/running/devices" "json"
     = "application/vnd.yang.datastore+json"
  /\ sent_header "Content-type"
       (Testbed.put "/api/running/devices" (PStr "{}") (Some "json") None
                    write_default_codes 30) Testbed.online
     <> Some (spec_content_type_header "/api/running/devices" "json").
Proof.
  assert (H : sent_header "Content-type"
                (Testbed.put "/api/running/devices" (PStr "{}") (Some "json")
                             None write_default_codes 30) Testbed.online
              = Some "application/vnd.yang.data+json") by reflexivity.
  split; [exact H|]. split; [reflexivity|].
  rewrite H. discriminate.
Qed.

(** C5 as the code has it, on the three verbs and a path under /api/. *)
Lemma content_type_header_of_writes_witness :
  sent_header "Content-type"
    (Testbed.post "/api/running/devices" (PStr "{}") (Some "JSON") None
                  write_default_codes 30) Testbed.online
  = Some "application/vnd.yang.datastore+json"
  /\ sent_header "Content-type"
       (Testbed.patch "/api/running/devices" (PStr "{}") (Some "JSON") None
                      write_default_codes 30) Testbed.online
     = Some "application/vnd.yang.data+json"
  /\ sent_header "Content-type"
       (Testbed.put "/api/running/devices" (PStr "{}") (Some "JSON") None
                    write_default_codes 30) Testbed.online
     = Some "application/vnd.yang.data+json".
Proof.
  exact (content_type_header_of_writes Testbed.device_name Testbed.alias
           Testbed.json_dumps Testbed.dict2xml (Testbed.answers 200)
           "/api/running/devices" (PStr "{}") (Some "JSON") None
           write_default_codes 30 Testbed.online Testbed.exploded_url
           "JSON" "json" Testbed.the_session
           eq_refl eq_refl eq_refl eq_refl eq_refl (or_introl eq_refl) eq_refl).
Defined.

(** C6 as stated fails on [delete]: it advertises one media type, not
    three. *)
Lemma delete_accepts_data_type_only :
  sent_header "Accept"
    (Testbed.delete "/api/running/devices/device/ce0" (Some "json") None
                    write_default_codes 30) Testbed.online
  = Some "application/vnd.yang.data+json"
  /\ sent_header "Accept"
       (Testbed.delete "/api/running/devices/device/ce0" (Some "json") None
                       write_default_codes 30) Testbed.online
     <> Some (spec_accept_header "json").
Proof.
  assert (H : sent_header "Accept"
                (Testbed.delete "/api/running/devices/device/ce0" (Some "json")
                                None write_default_codes 30) Testbed.online
              = Some "application/vnd.yang.data+json") by reflexivity.
  split; [exact H|]. rewrite H. discriminate.
Qed.

(** C6 as the code has it, with the default content type and the sniffed
    one both json. *)
Lemma accept_header_of_verbs_witness :
  sent_header "Accept"
    (Testbed.get "/api/running/devices" None None get_default_codes 30)
    Testbed.online
  = Some ("application/vnd.yang.data+json, application/vnd.yang.collection+json"
          +:+ ", application/vnd.yang.datastore+json")
  /\ sent_header "Accept"
       (Testbed.delete "/api/running/devices" None None get_default_codes 30)
       Testbed.online
     = Some "application/vnd.yang.data+json".
Proof.
  pose proof (accept_header_of_verbs Testbed.device_name Testbed.alias
                Testbed.json_dumps Testbed.dict2xml (Testbed.answers 200)
                "/api/running/devices" (PStr "{}") None None None
                get_default_codes 30 Testbed.online Testbed.exploded_url
                "json" Testbed.the_session
                eq_refl eq_refl eq_refl eq_refl eq_refl eq_refl) as H.
  cbv zeta in H. destruct H as [H _].
  destruct (H "json" eq_refl (or_introl eq_refl)) as (Hget & _ & _ & _ & Hdel).
  split; [exact Hget | exact Hdel].
Defined.

(** C7 at two payloads: XML after two spaces, sent as xml when no
    content type is passed and as json when json is; a JSON text, sent as
    json when none is passed and as xml when XML is. *)
Lemma content_type_sniffed_from_payload_witness :
  (sent_header "Content-type"
     (Testbed.put "/api/running/devices" (PStr "  <config/>") None None
                  write_default_codes 30) Testbed.online
   = Some "application/vnd.yang.data+xml"
   /\ sent_header "Content-type"
        (Testbed.put "/api/running/devices" (PStr "  <config/>") (Some "json")
                     None write_default_codes 30) Testbed.online
      = Some "application/vnd.yang.data+json")
  /\ (sent_header "Content-type"
        (Testbed.post "/api/running/devices" (PStr "{}") None None
                      write_default_codes 30) Testbed.online
      = Some "application/vnd.yang.datastore+json"
      /\ sent_header "Content-type"
           (Testbed.post "/api/running/devices" (PStr "{}") (Some "XML") None
                         write_default_codes 30) Testbed.online
         = Some "application/vnd.yang.datastore+xml").
Proof.
  pose proof (content_type_sniffed_from_payload Testbed.device_name
                Testbed.alias Testbed.json_dumps Testbed.dict2xml
                (Testbed.answers 200) "/api/running/devices" "  " "<config/>"
                "json" None write_default_codes 30 Testbed.online
                Testbed.exploded_url Testbed.the_session
                eq_refl eq_refl eq_refl eq_refl eq_refl eq_refl eq_refl) as H1.
  pose proof (content_type_sniffed_from_payload Testbed.device_name
                Testbed.alias Testbed.json_dumps Testbed.dict2xml
                (Testbed.answers 200) "/api/running/devices" EmptyString "{}"
                "XML" None write_default_codes 30 Testbed.online
                Testbed.exploded_url Testbed.the_session
                eq_refl eq_refl eq_refl eq_refl eq_refl eq_refl eq_refl) as H2.
  cbv zeta in H1, H2.
  destruct H1 as [(_ & _ & H1n & _) (_ & _ & H1e & _)].
  destruct H2 as [((H2n & _) & _) ((H2e & _) & _)].
  split; split; [exact H1n | exact H1e | exact H2n | exact H2e].
Defined.

(** C8 on the connected client. *)
Lemma dict_without_content_type_fails_witness :
  Testbed.post "/api/running/devices" (PDict Testbed.a_dict) None None
               write_default_codes 30 Testbed.online
  = (Raise (AssertionError "content_type parameter required when passing dict"),
     Testbed.online)
  /\ Testbed.patch "/api/running/devices" (PDict Testbed.a_dict) None None
                   write_default_codes 30 Testbed.online
     = (Raise (AssertionError "content_type parameter required when passing dict"),
        Testbed.online)
  /\ Testbed.put "/api/running/devices" (PDict Testbed.a_dict) None None
                 write_default_codes 30 Testbed.online
     = (Raise (AssertionError "content_type parameter required when passing dict"),
        Testbed.online).
Proof.
  exact (dict_without_content_type_fails Testbed.device_name Testbed.alias
           Testbed.json_dumps Testbed.dict2xml (Testbed.answers 200)
           "/api/running/devices" Testbed.a_dict None write_default_codes 30
           Testbed.online Testbed.exploded_url eq_refl eq_refl).
Defined.

(** C9 as stated fails on its own example: for the ip ::1 the base URL
    has the exploded address, not the compressed one. *)
Lemma loopback_base_url_is_exploded :
  Self.base_url
    (self (snd (Testbed.connect 200 30 (PortStr "8080") "http" "json"
                                Testbed.fresh)))
  = Some "http://[0000:0000:0000:0000:0000:0000:0000:0001]:8080"
  /\ Self.base_url
       (self (snd (Testbed.connect 200 30 (PortStr "8080") "http" "json"
                                   Testbed.fresh)))
     <> Some "http://[::1]:8080".
Proof.
  split; [reflexivity|]. vm_compute. discriminate.
Qed.

(** C9 as the code has it, at the ip ::1 with protocol http and port
    8080. *)
Lemma connect_ipv6_base_url_witness :
  IpAddress.ip_address "::1" = Some (IpAddress.V6 {| IpAddress.v6_ip := 1 |})
  /\ Self.base_url
       (self (snd (Testbed.connect 200 30 (PortStr "8080") "http" "json"
                                   Testbed.fresh)))
     = Some "http://[0000:0000:0000:0000:0000:0000:0000:0001]:8080".
Proof.
  split; [reflexivity|].
  exact (proj1 (connect_ipv6_base_url Testbed.via Testbed.connection_info
                  Testbed.credentials true (TunnelPort None "127.0.0.1")
                  Testbed.default_headers (Testbed.answers 200)
                  30 (PortStr "8080") "http" "json" Testbed.fresh
                  (IpText "::1") {| IpAddress.v6_ip := 1 |}
                  eq_refl eq_refl eq_refl eq_refl eq_refl)).
Defined.

(** C10 at the content type JSON: the dict goes out as it is, under the
    json media type. *)
Lemma dict_serialized_on_exact_content_type_witness :
  sent_data (Testbed.put "/api/running/devices" (PDict Testbed.a_dict)
                         (Some "JSON") None write_default_codes 30)
            Testbed.online
  = Some (PDict Testbed.a_dict)
  /\ sent_header "Content-type"
       (Testbed.put "/api/running/devices" (PDict Testbed.a_dict)
                    (Some "JSON") None write_default_codes 30)
       Testbed.online
     = Some "application/vnd.yang.data+json".
Proof.
  pose proof (dict_serialized_on_exact_content_type Testbed.device_name
                Testbed.alias Testbed.json_dumps Testbed.dict2xml
                (Testbed.answers 200) "/api/running/devices" Testbed.a_dict
                "JSON" None write_default_codes 30 Testbed.online
                Testbed.exploded_url Testbed.the_session
                eq_refl eq_refl eq_refl) as H.
  cbv zeta in H. destruct H as [(_ & _ & Hput) Hhdr].
  split; [exact Hput|].
  exact (Hhdr "json" eq_refl (or_introl eq_refl) eq_refl).
Defined.

(** With the exact lower-case json the same dict goes out serialized. *)
Lemma dict_serialized_on_json :
  sent_data (Testbed.put "/api/running/devices" (PDict Testbed.a_dict)
                         (Some "json") None write_default_codes 30)
            Testbed.online
  = Some (PStr "{hostname}").
Proof. reflexivity. Qed.

(** ** The library functions on a few inputs *)

Example ip_address_loopback_v4 :
  IpAddress.ip_address "127.0.0.1"
  = Some (IpAddress.V4 {| IpAddress.v4_ip := 2130706433 |}).
Proof. reflexivity. Qed.

Example ip_address_documentation_v6 :
  option_map (fun a => match a with
                       | IpAddress.V6 x => IpAddress.v6_exploded x
                       | IpAddress.V4 x => IpAddress.v4_exploded x
                       end)
             (IpAddress.ip_address "2001:db8::ff00:42:8329")
  = Some "2001:0db8:0000:0000:0000:ff00:0042:8329".
Proof. reflexivity. Qed.

Example ip_address_rejects :
  map IpAddress.ip_address ["ncs.example.com"; "1::2::3"; ":1"; "01.2.3.4"; "256.1.1.1"]
  = [None; None; None; None; None].
Proof. reflexivity. Qed.

Example lstrip_strips_left_only :
  map PyStr.lstrip ["  <config/>"; "{} "; String (ascii_of_N 9) "x y"]
  = ["<config/>"; "{} "; "x y"].
Proof. reflexivity. Qed.

Example lower_is_per_character :
  map PyStr.lower ["JSON"; "Xml"; "Content-type"; "text/plain"]
  = ["json"; "xml"; "content-type"; "text/plain"].
Proof. reflexivity. Qed.

(** The caller's headers win over the negotiated ones, under any
    spelling of the key. *)
Example caller_accept_wins :
  sent_header "Accept"
    (Testbed.get "/api/running/devices" (Some "json")
                 (Some [("accept", "text/plain")]) get_default_codes 30)
    Testbed.online
  = Some "text/plain".
Proof. reflexivity. Qed.

(** A status outside the expected ones raises, and the request went out. *)
Example get_unexpected_status :
  fst (Testbed.get "/api/running/devices" None None (CTuple [201]) 30
                   Testbed.online)
  = Raise (RequestException
             (("'200' result code has been returned instead of the expected "
               +:+ "status code(s) '(201,)' for 'ncs'")
              +:+ PyStr.newline +:+ "-")).
Proof. reflexivity. Qed.

(** ** Further behaviour of the class *)

(** Splits on every test a method makes. *)
Ltac all_paths send :=
  repeat (cbn in *;
          match goal with
          | |- context [match ?x with _ => _ end] => is_var x; destruct x
          | |- context [sniff ?p ?c] => first [is_var p; destruct p | is_var c; destruct c]
          | |- context [serialize _ _ ?p ?c] =>
              first [is_var p; destruct p | is_var c; destruct c]
          | |- context [negb ?c] => destruct c
          | |- context [send ?t ?r] => destruct (send t r)
          | |- context [String.eqb ?a ?b] => destruct (String.eqb a b)
          | |- context [PyStr.startswith ?a ?b] => destruct (PyStr.startswith a b)
          | |- context [PyStr.contains ?a ?b] => destruct (PyStr.contains a b)
          end).

Section Behaviour.

Variable device_name : string.
Variable alias : string.
Variable via : string.
Variable connection_info : connection_info_t.
Variable json_dumps : list (string * pyvalue) -> string.
Variable dict2xml : list (string * pyvalue) -> string.
Variable get_username_password : string * string.
Variable unicon_installed : bool.
Variable auto_tunnel_add : tunnel_result.
Variable default_headers : headers.
Variable send : list event -> request -> outcome response.
Variable close_session : list event -> option exn.

#[local] Abbreviation connect :=
  (connect via connection_info get_username_password unicon_installed
           auto_tunnel_add default_headers send).
#[local] Abbreviation disconnect := (disconnect close_session).
#[local] Abbreviation host_from_connection_info :=
  (host_from_connection_info connection_info).
#[local] Abbreviation serialize := (serialize json_dumps dict2xml).
#[local] Abbreviation get := (get device_name alias send).
#[local] Abbreviation post := (post device_name alias json_dumps dict2xml send).
#[local] Abbreviation patch := (patch device_name alias json_dumps dict2xml send).
#[local] Abbreviation put := (put device_name alias json_dumps dict2xml send).
#[local] Abbreviation delete := (delete device_name alias send).

(** *** The attributes a verb keeps *)

Lemma same_attributes_refl (c : Self.t) : same_attributes c c.
Proof. repeat split. Qed.

Lemma same_attributes_trans (a b c : Self.t) :
  same_attributes a b -> same_attributes b c -> same_attributes a c.
Proof.
  unfold same_attributes. intros (H1 & H2 & H3 & H4 & H5) (K1 & K2 & K3 & K4 & K5).
  repeat split; congruence.
Qed.

Lemma keeps_ret {A} (a : A) : keeps (ret a).
Proof. intros w. apply same_attributes_refl. Qed.

Lemma keeps_raise {A} (e : exn) : keeps (@raise A e).
Proof. intros w. apply same_attributes_refl. Qed.

Lemma keeps_lift {A} (o : outcome A) : keeps (lift o).
Proof. intros w. apply same_attributes_refl. Qed.

Lemma keeps_get_self : keeps get_self.
Proof. intros w. apply same_attributes_refl. Qed.

Lemma keeps_bind {A B} (m : M A) (k : A -> M B) :
  keeps m -> (forall a, keeps (k a)) -> keeps (bind m k).
Proof.
  intros Hm Hk w. unfold bind. specialize (Hm w).
  destruct (m w) as [[a|e] w']; cbn in *; [|exact Hm].
  eapply same_attributes_trans; [exact Hm | apply Hk].
Qed.

Lemma keeps_attr {A} (name : string) (f : Self.t -> option A) :
  keeps (attr name f).
Proof.
  intros w. unfold attr, bind, get_self. cbn.
  destruct (f (self w)); apply same_attributes_refl.
Qed.

Lemma keeps_headers_update (d : list (string * string)) :
  keeps (session_headers_update d).
Proof.
  intros w. unfold session_headers_update, attr, bind, get_self, set_self. cbn.
  destruct (Self.session (self w)) as [s|] eqn:E; cbn; [|apply same_attributes_refl].
  unfold same_attributes. cbn. rewrite E. repeat split.
Qed.

Lemma keeps_request (v : verb) (u : string) (d : option payload) (timeout : Z) :
  keeps (session_request send v u d timeout).
Proof.
  intros w. unfold session_request, attr, bind, get_self. cbn.
  destruct (Self.session (self w)); cbn; apply same_attributes_refl.
Qed.

Lemma keeps_check_status (r : response) (expected : codes) :
  keeps (check_status device_name r expected).
Proof.
  intros w. unfold check_status.
  destruct (negb _); apply same_attributes_refl.
Qed.

Ltac keeps_step :=
  first
    [ apply keeps_ret | apply keeps_raise | apply keeps_lift
    | apply keeps_get_self | apply keeps_attr | apply keeps_headers_update
    | apply keeps_request | apply keeps_check_status
    | apply keeps_bind; [|intros ?]
    | match goal with
      | |- keeps (if ?c then _ else _) => destruct c
      | |- keeps (match ?x with _ => _ end) => destruct x
      end ].

Lemma keeps_get (api_url : string) (content_type : option string)
    (hs : option (list (string * string))) (expected : codes) (timeout : Z) :
  keeps (get api_url content_type hs expected timeout).
Proof. unfold get. repeat keeps_step. Qed.

Lemma keeps_post (api_url : string) (p : payload) (content_type : option string)
    (hs : option (list (string * string))) (expected : codes) (timeout : Z) :
  keeps (post api_url p content_type hs expected timeout).
Proof. unfold post. repeat keeps_step. Qed.

Lemma keeps_patch (api_url : string) (p : payload) (content_type : option string)
    (hs : option (list (string * string))) (expected : codes) (timeout : Z) :
  keeps (patch api_url p content_type hs expected timeout).
Proof. unfold patch. repeat keeps_step. Qed.

Lemma keeps_put (api_url : string) (p : payload) (content_type : option string)
    (hs : option (list (string * string))) (expected : codes) (timeout : Z) :
  keeps (put api_url p content_type hs expected timeout).
Proof. unfold put. repeat keeps_step. Qed.

Lemma keeps_delete (api_url : string) (content_type : option string)
    (hs : option (list (string * string))) (expected : codes) (timeout : Z) :
  keeps (delete api_url content_type hs expected timeout).
Proof. unfold delete. repeat keeps_step. Qed.

(** X1. Whatever the arguments and the world, a verb leaves the connected
    flag, the default content type, the base URL, the login URL and the
    credentials of the session as they were. *)
Theorem verbs_keep_attributes
    (api_url : string) (p : payload) (content_type : option string)
    (hs : option (list (string * string))) (expected : codes) (timeout : Z)
    (w : world) :
  same_attributes (self w)
    (self (snd (get api_url content_type hs expected timeout w)))
  /\ same_attributes (self w)
       (self (snd (post api_url p content_type hs expected timeout w)))
  /\ same_attributes (self w)
       (self (snd (patch api_url p content_type hs expected timeout w)))
  /\ same_attributes (self w)
       (self (snd (put api_url p content_type hs expected timeout w)))
  /\ same_attributes (self w)
       (self (snd (delete api_url content_type hs expected timeout w))).
Proof.
  exact (conj (keeps_get _ _ _ _ _ w)
           (conj (keeps_post _ _ _ _ _ _ w)
              (conj (keeps_patch _ _ _ _ _ _ w)
                 (conj (keeps_put _ _ _ _ _ _ w) (keeps_delete _ _ _ _ _ w))))).
Qed.

(** *** The trace a verb leaves *)

Lemma quiet_ret {A} (a : A) : quiet (ret a).
Proof. intros w. reflexivity. Qed.

Lemma quiet_raise {A} (e : exn) : quiet (@raise A e).
Proof. intros w. reflexivity. Qed.

Lemma quiet_lift {A} (o : outcome A) : quiet (lift o).
Proof. intros w. reflexivity. Qed.

Lemma quiet_get_self : quiet get_self.
Proof. intros w. reflexivity. Qed.

Lemma quiet_bind {A B} (m : M A) (k : A -> M B) :
  quiet m -> (forall a, quiet (k a)) -> quiet (bind m k).
Proof.
  intros Hm Hk w. unfold bind. specialize (Hm w).
  destruct (m w) as [[a|e] w']; cbn in *; [|exact Hm].
  now rewrite Hk.
Qed.

Lemma quiet_attr {A} (name : string) (f : Self.t -> option A) :
  quiet (attr name f).
Proof.
  intros w. unfold attr, bind, get_self. cbn. now destruct (f (self w)).
Qed.

Lemma quiet_headers_update (d : list (string * string)) :
  quiet (session_headers_update d).
Proof.
  intros w. unfold session_headers_update, attr, bind, get_self, set_self. cbn.
  now destruct (Self.session (self w)).
Qed.

Lemma quiet_check_status (r : response) (expected : codes) :
  quiet (check_status device_name r expected).
Proof. intros w. unfold check_status. now destruct (negb _). Qed.

Lemma emits_request (v : verb) (u : string) (d : option payload) (timeout : Z) :
  emits (at_most_one v) (session_request send v u d timeout).
Proof.
  intros w. unfold session_request, attr, bind, get_self. cbn.
  destruct (Self.session (self w)) as [s|]; cbn.
  - eexists. split; [reflexivity|]. right. eexists. split; reflexivity.
  - exists []. split; [now rewrite app_nil_r | now left].
Qed.

Lemma emits_after_quiet {A B} (P : list event -> Prop) (m : M A) (k : A -> M B) :
  P [] -> quiet m -> (forall a, emits P (k a)) -> emits P (bind m k).
Proof.
  intros HP Hm Hk w. unfold bind. specialize (Hm w).
  destruct (m w) as [[a|e] w']; cbn in *.
  - destruct (Hk a w') as (evs & E & H). exists evs. now rewrite E, Hm.
  - exists []. now rewrite app_nil_r.
Qed.

Lemma emits_then_quiet {A B} (P : list event -> Prop) (m : M A) (k : A -> M B) :
  emits P m -> (forall a, quiet (k a)) -> emits P (bind m k).
Proof.
  intros Hm Hk w. unfold bind. destruct (Hm w) as (evs & E & H).
  destruct (m w) as [[a|e] w']; cbn in *; exists evs; [|now split].
  now rewrite Hk.
Qed.

Lemma emits_quiet {A} (P : list event -> Prop) (m : M A) :
  P [] -> quiet m -> emits P m.
Proof.
  intros HP Hm w. exists []. now rewrite app_nil_r.
Qed.

Lemma at_most_one_nil (v : verb) : at_most_one v [].
Proof. now left. Qed.

Ltac quiet_step :=
  first
    [ apply quiet_ret | apply quiet_raise | apply quiet_lift
    | apply quiet_get_self | apply quiet_attr | apply quiet_headers_update
    | apply quiet_check_status
    | apply quiet_bind; [|intros ?]
    | match goal with
      | |- quiet (if ?c then _ else _) => destruct c
      | |- quiet (match ?x with _ => _ end) => destruct x
      end ].

Ltac emits_step :=
  first
    [ apply emits_then_quiet;
      [apply emits_request | intros ?; solve [repeat quiet_step]]
    | apply emits_after_quiet;
      [apply at_most_one_nil | solve [repeat quiet_step] | intros ?]
    | apply emits_quiet; [apply at_most_one_nil | solve [repeat quiet_step]]
    | match goal with
      | |- emits _ (if ?c then _ else _) => destruct c
      | |- emits _ (match ?x with _ => _ end) => destruct x
      end ].

Lemma issued_of_emits {A} (P : list event -> Prop) (m : M A) (w : world) :
  emits P m ->
  wire (snd (m w)) = wire w ++ issued m w /\ P (issued m w).
Proof.
  intros H. destruct (H w) as (evs & E & HP). unfold issued.
  rewrite E, drop_app_length. now split.
Qed.

(** X2. Whatever the arguments and the world, a verb only appends to the
    trace of the transport, and what it appends is nothing or one request
    of its own method: no second request, no retry, no close. *)
Theorem verbs_send_at_most_one
    (api_url : string) (p : payload) (content_type : option string)
    (hs : option (list (string * string))) (expected : codes) (timeout : Z)
    (w : world) :
  let same_and_one {A} (v : verb) (m : M A) :=
    wire (snd (m w)) = wire w ++ issued m w /\ at_most_one v (issued m w) in
  same_and_one GET (get api_url content_type hs expected timeout)
  /\ same_and_one POST (post api_url p content_type hs expected timeout)
  /\ same_and_one PATCH (patch api_url p content_type hs expected timeout)
  /\ same_and_one PUT (put api_url p content_type hs expected timeout)
  /\ same_and_one DELETE (delete api_url content_type hs expected timeout).
Proof.
  cbv zeta.
  split; [|split; [|split; [|split]]]; apply issued_of_emits.
  - unfold get. repeat emits_step.
  - unfold post. repeat emits_step.
  - unfold patch. repeat emits_step.
  - unfold put. repeat emits_step.
  - unfold delete. repeat emits_step.
Qed.

(** *** The result of a verb *)

#[local] Arguments code_in : simpl never.
#[local] Arguments codes_repr : simpl never.

Lemma on_request_quiet {A}
    (Q : list event -> request -> outcome A * world -> Prop) (m : M A) :
  quiet m -> on_request Q m.
Proof.
  intros Hm w r. unfold the_request, issued. rewrite Hm, drop_all. discriminate.
Qed.

Lemma on_request_after_quiet {A B}
    (Q : list event -> request -> outcome B * world -> Prop)
    (m : M A) (k : A -> M B) :
  quiet m -> (forall a, on_request Q (k a)) -> on_request Q (bind m k).
Proof.
  intros Hm Hk w r. unfold the_request, issued, bind. specialize (Hm w).
  destruct (m w) as [[a|e] w']; cbn in *.
  - rewrite <- Hm. apply Hk.
  - rewrite Hm, drop_all. discriminate.
Qed.

Lemma decided_request (expected : codes) (v : verb) (u : string)
    (d : option payload) (timeout : Z) :
  on_request
    (fun tr r res => fst res = checked device_name expected (send tr r))
    (bind (session_request send v u d timeout)
          (fun response => check_status device_name response expected)).
Proof.
  intros w r.
  unfold the_request, issued, session_request, attr, bind, get_self, ret, raise.
  cbn. destruct (Self.session (self w)) as [s|]; cbn.
  - destruct (send (wire w) _) as [resp|e] eqn:E; cbn.
    + unfold check_status, unexpected_status_message.
      destruct (code_in (status_code resp) expected) eqn:C; cbn;
        rewrite drop_app_length; intros [= <-]; rewrite E; cbn; now rewrite C.
    + rewrite drop_app_length. intros [= <-]. now rewrite E.
  - rewrite drop_all. discriminate.
Qed.

Ltac on_request_step base :=
  first
    [ apply base
    | apply on_request_after_quiet; [solve [repeat quiet_step] | intros ?]
    | apply on_request_quiet; solve [repeat quiet_step]
    | match goal with
      | |- on_request _ (if ?c then _ else _) => destruct c
      | |- on_request _ (match ?x with _ => _ end) => destruct x
      end ].

(** X3. When a verb has sent its request, its result is decided by the
    answer to that request alone: the response itself if its status is
    among the expected ones, a RequestException naming the status, the
    expected ones, the device and the body otherwise, and the exception of
    the transport, as it is, if the transport raised. *)
Theorem verbs_result_follows_answer
    (api_url : string) (p : payload) (content_type : option string)
    (hs : option (list (string * string))) (expected : codes) (timeout : Z)
    (w : world) :
  let decided_at_w (m : M response) :=
    forall r, the_request m w = Some r ->
              fst (m w) = checked device_name expected (send (wire w) r) in
  decided_at_w (get api_url content_type hs expected timeout)
  /\ decided_at_w (post api_url p content_type hs expected timeout)
  /\ decided_at_w (patch api_url p content_type hs expected timeout)
  /\ decided_at_w (put api_url p content_type hs expected timeout)
  /\ decided_at_w (delete api_url content_type hs expected timeout).
Proof.
  cbv zeta.
  pose (Q := fun (tr : list event) (r : request) (res : outcome response * world) =>
               fst res = checked device_name expected (send tr r)).
  assert (Hget : on_request Q (get api_url content_type hs expected timeout))
    by (unfold get; repeat on_request_step decided_request).
  assert (Hpost : on_request Q (post api_url p content_type hs expected timeout))
    by (unfold post; repeat on_request_step decided_request).
  assert (Hpatch : on_request Q (patch api_url p content_type hs expected timeout))
    by (unfold patch; repeat on_request_step decided_request).
  assert (Hput : on_request Q (put api_url p content_type hs expected timeout))
    by (unfold put; repeat on_request_step decided_request).
  assert (Hdelete : on_request Q (delete api_url content_type hs expected timeout))
    by (unfold delete; repeat on_request_step decided_request).
  exact (conj (Hget w) (conj (Hpost w) (conj (Hpatch w)
           (conj (Hput w) (Hdelete w))))).
Qed.

Lemma session_after_check (expected : codes) (v : verb) (u : string)
    (d : option payload) (timeout : Z) :
  on_request holds_request
    (bind (session_request send v u d timeout)
          (fun response => check_status device_name response expected)).
Proof.
  intros w r.
  unfold holds_request, the_request, issued, session_request, check_status,
    attr, bind, get_self, ret, raise.
  cbn. destruct (Self.session (self w)) as [[a h]|] eqn:E; cbn.
  - destruct (send (wire w) _) as [resp|e]; cbn;
      [destruct (negb _); cbn|];
      rewrite drop_app_length; intros [= <-]; exact E.
  - rewrite drop_all. discriminate.
Qed.

Lemma leaves_get (api_url : string) (content_type : option string)
    (hs : option (list (string * string))) (expected : codes) (timeout : Z) :
  on_request holds_request (get api_url content_type hs expected timeout).
Proof. unfold get. repeat on_request_step session_after_check. Qed.

Lemma leaves_post (api_url : string) (p : payload) (content_type : option string)
    (hs : option (list (string * string))) (expected : codes) (timeout : Z) :
  on_request holds_request (post api_url p content_type hs expected timeout).
Proof. unfold post. repeat on_request_step session_after_check. Qed.

Lemma leaves_patch (api_url : string) (p : payload) (content_type : option string)
    (hs : option (list (string * string))) (expected : codes) (timeout : Z) :
  on_request holds_request (patch api_url p content_type hs expected timeout).
Proof. unfold patch. repeat on_request_step session_after_check. Qed.

Lemma leaves_put (api_url : string) (p : payload) (content_type : option string)
    (hs : option (list (string * string))) (expected : codes) (timeout : Z) :
  on_request holds_request (put api_url p content_type hs expected timeout).
Proof. unfold put. repeat on_request_step session_after_check. Qed.

Lemma leaves_delete (api_url : string) (content_type : option string)
    (hs : option (list (string * string))) (expected : codes) (timeout : Z) :
  on_request holds_request (delete api_url content_type hs expected timeout).
Proof. unfold delete. repeat on_request_step session_after_check. Qed.

(** X4. When a verb has sent its request, the session is left holding
    exactly the headers of that request: the negotiated headers and the
    caller's extra headers are written into the session and stay there,
    also when the call then fails. *)
Theorem verbs_leave_their_headers
    (api_url : string) (p : payload) (content_type : option string)
    (hs : option (list (string * string))) (expected : codes) (timeout : Z)
    (w : world) :
  let left_by (m : M response) :=
    forall r, the_request m w = Some r ->
              Self.session (self (snd (m w)))
              = Some {| auth := request_auth r;
                        session_headers := request_headers r |} in
  left_by (get api_url content_type hs expected timeout)
  /\ left_by (post api_url p content_type hs expected timeout)
  /\ left_by (patch api_url p content_type hs expected timeout)
  /\ left_by (put api_url p content_type hs expected timeout)
  /\ left_by (delete api_url content_type hs expected timeout).
Proof.
  cbv zeta.
  exact (conj (leaves_get _ _ _ _ _ w)
           (conj (leaves_post _ _ _ _ _ _ w)
              (conj (leaves_patch _ _ _ _ _ _ w)
                 (conj (leaves_put _ _ _ _ _ _ w) (leaves_delete _ _ _ _ _ w))))).
Qed.

(** X5. The headers of one call reach the next: on a connected client, a
    [get] that follows a [post] sends every header the post sent, apart
    from Accept, with the value the post gave it, unless the caller's
    headers of the get name it. So the Content-type negotiated for the
    post also goes out with the get, which sets none. *)
Theorem post_headers_reach_next_get
    (api_url : string) (p : payload) (content_type : option string)
    (hs : option (list (string * string))) (expected : codes) (timeout : Z)
    (api_url' : string) (content_type' : option string)
    (hs' : option (list (string * string))) (expected' : codes) (timeout' : Z)
    (w : world) (b ct ct' name : string) (s : Session) :
  connected (self w) = true ->
  Self.base_url (self w) = Some b ->
  Self.session (self w) = Some s ->
  sniff p content_type = Ok ct ->
  match content_type' with Some c => Some c | None => Self.content_type (self w) end
    = Some ct' ->
  PyStr.lower name <> "accept" ->
  overrides name hs' = false ->
  sent_header name (get api_url' content_type' hs' expected' timeout')
              (snd (post api_url p content_type hs expected timeout w))
  = sent_header name (post api_url p content_type hs expected timeout) w.
Proof.
  intros Hc Hb Hs Hct Hct' Hname Ho.
  destruct (sniff_ok_serialize_ok json_dumps dict2xml _ _ _ Hct) as [rp Hp].
  pose proof (post_sends device_name alias json_dumps dict2xml send
                api_url p content_type hs expected timeout w b ct s rp
                Hc Hb Hs Hp Hct) as Hr1.
  pose proof (leaves_post _ _ _ _ _ _ w _ Hr1) as Hs1.
  destruct (keeps_post api_url p content_type hs expected timeout w)
    as (Kc & Kt & Kb & _ & _).
  unfold holds_request in Hs1. cbn [request_auth request_headers] in Hs1.
  set (w1 := snd (post api_url p content_type hs expected timeout w)) in *.
  assert (Hct1 : match content_type' with
                 | Some c => Some c
                 | None => Self.content_type (self w1)
                 end = Some ct') by (now rewrite Kt).
  assert (Hc1 : connected (self w1) = true) by (unfold connected; now rewrite Kc).
  assert (Hb1 : Self.base_url (self w1) = Some b) by (now rewrite Kb).
  unfold sent_header.
  rewrite (get_sends device_name alias send api_url' content_type' hs' expected'
             timeout' w1 b ct' _ Hc1 Hb1 Hs1 Hct1).
  rewrite Hr1. cbn [request_headers session_headers].
  rewrite getitem_merged by exact Ho.
  unfold update at 1. cbn [fold_left fst snd].
  now rewrite getitem_setitem_ne.
Qed.

(** *** [connect] *)

(** X6. On a client that is not connected, without tunnel and with the
    host resolved: when the probe is answered with status 200, [connect]
    returns that response and leaves the client connected, with the
    default content type it was given, the base URL, the login URL (base
    URL + /api) and a new session that holds the credentials and the
    headers of a fresh session, whatever session the client held before;
    the probe is the one request sent. *)
Theorem connect_succeeds_on_200
    (timeout : Z) (port : port_field) (protocol dct : string) (w : world)
    (host : string) (resp : response) :
  connected (self w) = false ->
  ci_sshtunnel connection_info = None ->
  host_from_connection_info = Ok host ->
  let port' := port_str (match ci_port connection_info with
                         | Some p => p
                         | None => port
                         end) in
  let protocol' := match ci_protocol connection_info with
                   | Some p => p
                   | None => protocol
                   end in
  let base := protocol' +:+ "://" +:+ host +:+ ":" +:+ port' in
  let fresh_session := {| auth := Some get_username_password;
                          session_headers := default_headers |} in
  let probe := {| method := GET;
                  url := base +:+ "/api";
                  data := None;
                  request_headers := default_headers;
                  request_auth := Some get_username_password;
                  request_timeout := timeout |} in
  send (wire w) probe = Ok resp ->
  status_code resp = 200 ->
  connect timeout port protocol dct w
  = (Ok (Some resp),
     {| self := {| Self._is_connected := true;
                   Self.content_type := Some dct;
                   Self.base_url := Some base;
                   Self.login_url := Some (base +:+ "/api");
                   Self.session := Some fresh_session |};
        wire := wire w ++ [Sent probe] |}).
Proof.
  intros Hc Ht Hh port' protocol' base fresh_session probe Hsend Hstatus.
  subst port' protocol' base fresh_session probe. revert Hsend.
  open_world w. run_verb. rewrite Ht, Hh. cbn.
  destruct get_username_password as [username password]. cbn.
  intros ->. cbn. rewrite Hstatus. reflexivity.
Qed.

(** X7. Under the same conditions, when the transport raises on the
    probe, [connect] raises that same exception; the client is not
    connected, yet it keeps the content type, the URLs and the session
    that [connect] had assigned before probing. *)
Theorem connect_propagates_transport_error
    (timeout : Z) (port : port_field) (protocol dct : string) (w : world)
    (host : string) (e : exn) :
  connected (self w) = false ->
  ci_sshtunnel connection_info = None ->
  host_from_connection_info = Ok host ->
  let port' := port_str (match ci_port connection_info with
                         | Some p => p
                         | None => port
                         end) in
  let protocol' := match ci_protocol connection_info with
                   | Some p => p
                   | None => protocol
                   end in
  let base := protocol' +:+ "://" +:+ host +:+ ":" +:+ port' in
  let fresh_session := {| auth := Some get_username_password;
                          session_headers := default_headers |} in
  let probe := {| method := GET;
                  url := base +:+ "/api";
                  data := None;
                  request_headers := default_headers;
                  request_auth := Some get_username_password;
                  request_timeout := timeout |} in
  send (wire w) probe = Raise e ->
  connect timeout port protocol dct w
  = (Raise e,
     {| self := {| Self._is_connected := false;
                   Self.content_type := Some dct;
                   Self.base_url := Some base;
                   Self.login_url := Some (base +:+ "/api");
                   Self.session := Some fresh_session |};
        wire := wire w ++ [Sent probe] |}).
Proof.
  intros Hc Ht Hh port' protocol' base fresh_session probe Hsend.
  subst port' protocol' base fresh_session probe. revert Hsend.
  open_world w. run_verb. rewrite Ht, Hh. cbn.
  destruct get_username_password as [username password]. cbn.
  intros ->. reflexivity.
Qed.

(** X8. When the connection block has no tunnel and the target cannot be
    resolved, [connect] raises before anything is sent: KeyError for the
    key ip when the block has neither host nor ip, ValueError when the ip
    is a text that is no IPv4 or IPv6 address. The client is left not
    connected and unchanged but for the default content type, already
    overwritten. *)
Theorem connect_without_target
    (timeout : Z) (port : port_field) (protocol dct : string) (w : world) :
  connected (self w) = false ->
  ci_sshtunnel connection_info = None ->
  ci_host connection_info = None ->
  ci_ip connection_info = None
  \/ (exists t, ci_ip connection_info = Some (IpText t)
                /\ IpAddress.ip_address t = None) ->
  exists e,
    connect timeout port protocol dct w
    = (Raise e,
       {| self := {| Self._is_connected := false;
                     Self.content_type := Some dct;
                     Self.base_url := Self.base_url (self w);
                     Self.login_url := Self.login_url (self w);
                     Self.session := Self.session (self w) |};
          wire := wire w |})
    /\ match ci_ip connection_info with
       | None => e = KeyError "ip"
       | Some _ => exists msg, e = ValueError msg
       end.
Proof.
  intros Hc Ht Hh Hip. open_world w. run_verb.
  unfold host_from_connection_info. rewrite Ht, Hh. cbn.
  destruct Hip as [Hi|(t & Hi & Ha)]; rewrite Hi; cbn.
  - eexists. split; reflexivity.
  - rewrite Ha. eexists. split; [reflexivity|]. eexists. reflexivity.
Qed.

(** X9. A host in the connection block wins over the ip and goes into
    the base URL as it is written: the ip is not looked at, not even
    parsed. *)
Theorem connect_prefers_host
    (timeout : Z) (port : port_field) (protocol dct : string) (w : world)
    (host : string) :
  connected (self w) = false ->
  ci_sshtunnel connection_info = None ->
  ci_host connection_info = Some host ->
  let port' := port_str (match ci_port connection_info with
                         | Some p => p
                         | None => port
                         end) in
  let protocol' := match ci_protocol connection_info with
                   | Some p => p
                   | None => protocol
                   end in
  Self.base_url (self (snd (connect timeout port protocol dct w)))
  = Some (protocol' +:+ "://" +:+ host +:+ ":" +:+ port').
Proof.
  intros Hc Ht Hh port' protocol'. subst port' protocol'.
  open_world w. run_verb. unfold host_from_connection_info.
  rewrite Ht, Hh. cbn.
  destruct get_username_password as [username password]. cbn.
  match goal with |- context [send ?t ?r] => destruct (send t r) as [resp|e] end;
    cbn; [|reflexivity].
  now destruct (status_code resp =? requests_codes.ok).
Qed.

(** X10. An ip that is an IPv4 address goes into the base URL as the
    dotted quad, without brackets. *)
Theorem connect_ipv4_base_url
    (timeout : Z) (port : port_field) (protocol dct : string) (w : world)
    (ip : ip_field) (a : IpAddress.IPv4Address) :
  connected (self w) = false ->
  ci_sshtunnel connection_info = None ->
  ci_host connection_info = None ->
  ci_ip connection_info = Some ip ->
  match ip with
  | IpObject x => Some x
  | IpText t => IpAddress.ip_address t
  end = Some (IpAddress.V4 a) ->
  let port' := port_str (match ci_port connection_info with
                         | Some p => p
                         | None => port
                         end) in
  let protocol' := match ci_protocol connection_info with
                   | Some p => p
                   | None => protocol
                   end in
  let octet (k : N) :=
    PyStr.of_int (Z.of_N (N.land (N.shiftr (IpAddress.v4_ip a) (8 * k)) 255)) in
  Self.base_url (self (snd (connect timeout port protocol dct w)))
  = Some (protocol' +:+ "://"
          +:+ (octet 3%N +:+ "." +:+ octet 2%N +:+ "." +:+ octet 1%N
               +:+ "." +:+ octet 0%N)
          +:+ ":" +:+ port').
Proof.
  intros Hc Ht Hh Hi Ha port' protocol' octet. subst port' protocol' octet.
  open_world w. run_verb. unfold host_from_connection_info.
  rewrite Ht, Hh, Hi. cbn. rewrite Ha. cbn.
  destruct get_username_password as [username password]. cbn.
  match goal with |- context [send ?t ?r] => destruct (send t r) as [resp|e] end;
    cbn; [|reflexivity].
  now destruct (status_code resp =? requests_codes.ok).
Qed.

(** X11. When the connection block has a port and a protocol, the [port]
    and [protocol] arguments of [connect] have no effect at all. *)
Theorem connect_block_overrides_arguments
    (timeout : Z) (port port2 : port_field) (protocol protocol2 dct : string)
    (w : world) (p : port_field) (q : string) :
  ci_port connection_info = Some p ->
  ci_protocol connection_info = Some q ->
  connect timeout port protocol dct w = connect timeout port2 protocol2 dct w.
Proof.
  intros Hp Hq. open_world w. run_verb. rewrite Hp, Hq.
  destruct _is_connected; cbn; [reflexivity|].
  destruct (ci_sshtunnel connection_info); cbn; [|reflexivity].
  destruct unicon_installed; cbn; [|reflexivity].
  destruct auto_tunnel_add as [msg|[tp|] tip]; cbn; try reflexivity.
  now destruct (tp =? 0).
Qed.

(** X12. With sshtunnel in the connection block, [connect] on a client
    that is not connected never connects and never sends the probe: it
    raises ImportError when unicon is missing, AttributeError when the
    tunnel cannot be added, and otherwise UnboundLocalError, because the
    tunnel branch binds ip and port but leaves [host] unbound. *)
Theorem connect_through_tunnel_fails
    (timeout : Z) (port : port_field) (protocol dct : string) (w : world) :
  connected (self w) = false ->
  ci_sshtunnel connection_info <> None ->
  exists e,
    connect timeout port protocol dct w
    = (Raise e,
       {| self := {| Self._is_connected := false;
                     Self.content_type := Some dct;
                     Self.base_url := Self.base_url (self w);
                     Self.login_url := Self.login_url (self w);
                     Self.session := Self.session (self w) |};
          wire := wire w |})
    /\ match unicon_installed, auto_tunnel_add with
       | false, _ => exists msg, e = ImportError msg
       | true, TunnelAttributeError _ => exists msg, e = AttributeError msg
       | true, TunnelPort _ _ => e = UnboundLocalError "host"
       end.
Proof.
  intros Hc Ht. open_world w. run_verb.
  destruct (ci_sshtunnel connection_info); [|contradiction]. cbn.
  destruct unicon_installed; cbn.
  - destruct auto_tunnel_add as [msg|[tp|] tip]; cbn;
      try destruct (tp =? 0); cbn; eexists; (split; [reflexivity|]);
      first [reflexivity | eexists; reflexivity].
  - eexists. split; [reflexivity|]. eexists. reflexivity.
Qed.

(** *** [disconnect] *)

(** X13. [disconnect] closes the session once if there is one, and
    changes nothing of the client but the flag: the session, with the
    headers gathered so far, the URLs and the content type stay. Its result
    is the exception of the close if the close raised, AttributeError if
    the client never had a session, and nothing otherwise. *)
Theorem disconnect_closes_and_keeps_session (w : world) :
  disconnect w
  = (match Self.session (self w) with
     | None => Raise (AttributeError "session")
     | Some _ => match close_session (wire w) with
                 | Some e => Raise e
                 | None => Ok tt
                 end
     end,
     {| self := {| Self._is_connected := false;
                   Self.content_type := Self.content_type (self w);
                   Self.base_url := Self.base_url (self w);
                   Self.login_url := Self.login_url (self w);
                   Self.session := Self.session (self w) |};
        wire := wire w ++ match Self.session (self w) with
                          | None => []
                          | Some _ => [Closed]
                          end |}).
Proof.
  open_world w.
  unfold disconnect, try_finally, session_close, attr, bind,
    get_self, set_self, ret, raise.
  cbn. destruct session as [s|]; cbn.
  - now destruct (close_session wire0).
  - now rewrite app_nil_r.
Qed.

(** X14. After [disconnect], whatever its outcome, every verb fails with
    the not-connected exception and sends nothing. *)
Theorem verbs_fail_after_disconnect
    (api_url : string) (p : payload) (content_type : option string)
    (hs : option (list (string * string))) (expected : codes) (timeout : Z)
    (w : world) :
  let w' := snd (disconnect w) in
  let e : exn :=
    PyException ("'" +:+ device_name +:+ "' is not connected for alias '"
                 +:+ alias +:+ "'") in
  get api_url content_type hs expected timeout w' = (Raise e, w')
  /\ post api_url p content_type hs expected timeout w' = (Raise e, w')
  /\ patch api_url p content_type hs expected timeout w' = (Raise e, w')
  /\ put api_url p content_type hs expected timeout w' = (Raise e, w')
  /\ delete api_url content_type hs expected timeout w' = (Raise e, w').
Proof.
  intros w' e.
  assert (Hc : Self._is_connected (self w') = false).
  { subst w'. unfold disconnect, try_finally.
    now destruct (session_close close_session w). }
  unfold get, post, patch, put, delete, bind, get_self, connected.
  rewrite Hc. cbn. repeat split.
Qed.

(** X15. [connect] after [disconnect] starts over: with the host
    resolved and the probe answered with 200, the client is connected
    again and its session is a new one, with the credentials and the
    headers of a fresh session, so that the headers gathered by earlier
    calls are gone. *)
Theorem reconnect_starts_a_fresh_session
    (timeout : Z) (port : port_field) (protocol dct : string) (w : world)
    (host : string) (resp : response) :
  ci_sshtunnel connection_info = None ->
  host_from_connection_info = Ok host ->
  let port' := port_str (match ci_port connection_info with
                         | Some p => p
                         | None => port
                         end) in
  let protocol' := match ci_protocol connection_info with
                   | Some p => p
                   | None => protocol
                   end in
  let probe := {| method := GET;
                  url := (protocol' +:+ "://" +:+ host +:+ ":" +:+ port') +:+ "/api";
                  data := None;
                  request_headers := default_headers;
                  request_auth := Some get_username_password;
                  request_timeout := timeout |} in
  let w1 := snd (disconnect w) in
  let w2 := snd (connect timeout port protocol dct w1) in
  send (wire w1) probe = Ok resp ->
  status_code resp = 200 ->
  connected (self w2) = true
  /\ Self.session (self w2)
     = Some {| auth := Some get_username_password;
               session_headers := default_headers |}
  /\ wire w2 = wire w1 ++ [Sent probe].
Proof.
  intros Ht Hh port' protocol' probe w1 w2 Hsend Hstatus.
  subst port' protocol' probe w2 w1. revert Hsend.
  open_world w.
  unfold disconnect, try_finally, session_close, attr.
  run_verb.
  destruct session as [s|]; cbn; [destruct (close_session wire0); cbn|];
    rewrite Ht, Hh; cbn;
    destruct get_username_password as [username password]; cbn;
    intros ->; cbn; rewrite Hstatus; repeat split.
Qed.

(** *** Content type and headers *)

#[local] Arguments PyStr.startswith : simpl never.
#[local] Arguments PyStr.lstrip : simpl never.

(** X16. [get] and [delete] called without content type use the default
    content type that [connect] stored: the call is the call with that
    content type passed. *)
Theorem reads_use_default_content_type
    (api_url : string) (hs : option (list (string * string)))
    (expected : codes) (timeout : Z) (w : world) (d : string) :
  Self.content_type (self w) = Some d ->
  get api_url None hs expected timeout w
  = get api_url (Some d) hs expected timeout w
  /\ delete api_url None hs expected timeout w
     = delete api_url (Some d) hs expected timeout w.
Proof.
  intros Hd. open_world w. run_verb.
  destruct _is_connected; cbn; split; reflexivity.
Qed.

Lemma blind_ret {A} (d : option string) (a : A) : blind d (ret a).
Proof. intros w. reflexivity. Qed.

Lemma blind_raise {A} (d : option string) (e : exn) : blind d (@raise A e).
Proof. intros w. reflexivity. Qed.

Lemma blind_lift {A} (d : option string) (o : outcome A) : blind d (lift o).
Proof. intros w. reflexivity. Qed.

Lemma blind_bind {A B} (d : option string) (m : M A) (k : A -> M B) :
  blind d m -> (forall a, blind d (k a)) -> blind d (bind m k).
Proof.
  intros Hm Hk w. unfold bind. rewrite Hm.
  destruct (m w) as [[a|e] w1]; cbn; [apply Hk | reflexivity].
Qed.

Lemma blind_guard {A} (d : option string) (m1 m2 : M A) :
  blind d m1 -> blind d m2 ->
  blind d (bind get_self (fun c => if negb (connected c) then m1 else m2)).
Proof.
  intros H1 H2 w. unfold bind, get_self, connected. cbn.
  destruct (negb _); [apply H1 | apply H2].
Qed.

Lemma blind_base_url (d : option string) : blind d (attr "base_url" Self.base_url).
Proof.
  intros w. unfold attr, bind, get_self. cbn.
  now destruct (Self.base_url (self w)).
Qed.

Lemma blind_headers_update (d : option string) (h : list (string * string)) :
  blind d (session_headers_update h).
Proof.
  intros w. unfold session_headers_update, attr, bind, get_self, set_self. cbn.
  now destruct (Self.session (self w)).
Qed.

Lemma blind_request (d : option string) (v : verb) (u : string)
    (b : option payload) (timeout : Z) :
  blind d (session_request send v u b timeout).
Proof.
  intros w. unfold session_request, attr, bind, get_self. cbn.
  now destruct (Self.session (self w)).
Qed.

Lemma blind_check_status (d : option string) (r : response) (expected : codes) :
  blind d (check_status device_name r expected).
Proof. intros w. unfold check_status. now destruct (negb _). Qed.

Ltac blind_step :=
  first
    [ apply blind_guard
    | apply blind_ret | apply blind_raise | apply blind_lift
    | apply blind_base_url | apply blind_headers_update
    | apply blind_request | apply blind_check_status
    | apply blind_bind; [|intros ?]
    | match goal with
      | |- blind _ (if ?c then _ else _) => destruct c
      | |- blind _ (match ?x with _ => _ end) => destruct x
      end ].

Lemma blind_same {A} (d : option string) (m : M A) (w : world) :
  blind d m ->
  fst (m (with_default d w)) = fst (m w)
  /\ issued m (with_default d w) = issued m w.
Proof.
  intros H. unfold issued. rewrite H. split; reflexivity.
Qed.

(** X17. [post], [patch] and [put] never read the default content type of
    the client: with any other default in its place they return the same
    result and send the same request. *)
Theorem writes_ignore_default_content_type
    (api_url : string) (p : payload) (content_type : option string)
    (hs : option (list (string * string))) (expected : codes) (timeout : Z)
    (w : world) (d : option string) :
  let same (m : M response) :=
    fst (m (with_default d w)) = fst (m w)
    /\ issued m (with_default d w) = issued m w in
  same (post api_url p content_type hs expected timeout)
  /\ same (patch api_url p content_type hs expected timeout)
  /\ same (put api_url p content_type hs expected timeout).
Proof.
  cbv zeta. split; [|split]; apply blind_same.
  - unfold post. repeat blind_step.
  - unfold patch. repeat blind_step.
  - unfold put. repeat blind_step.
Qed.

(** X18. The content type is matched without regard to case: a call with
    a content type that lower-cases to json (or to xml) is the call with
    json (or xml) itself, for [get] and [delete] and, on a string payload,
    for [post], [patch] and [put]. *)
Theorem content_type_case_is_ignored
    (api_url t : string) (ct fmt : string)
    (hs : option (list (string * string))) (expected : codes) (timeout : Z)
    (w : world) :
  PyStr.lower ct = fmt ->
  fmt = "json" \/ fmt = "xml" ->
  get api_url (Some ct) hs expected timeout w
  = get api_url (Some fmt) hs expected timeout w
  /\ delete api_url (Some ct) hs expected timeout w
     = delete api_url (Some fmt) hs expected timeout w
  /\ post api_url (PStr t) (Some ct) hs expected timeout w
     = post api_url (PStr t) (Some fmt) hs expected timeout w
  /\ patch api_url (PStr t) (Some ct) hs expected timeout w
     = patch api_url (PStr t) (Some fmt) hs expected timeout w
  /\ put api_url (PStr t) (Some ct) hs expected timeout w
     = put api_url (PStr t) (Some fmt) hs expected timeout w.
Proof.
  intros Hl Hf.
  assert (Hfmt : PyStr.lower fmt = fmt)
    by (destruct Hf as [E|E]; rewrite E; reflexivity).
  revert Hl Hf Hfmt. open_world w. run_verb. intros Hl Hf Hfmt.
  destruct _is_connected; cbn; [|repeat split].
  destruct base_url as [b|]; cbn; [|repeat split].
  rewrite Hl, Hfmt.
  destruct Hf as [Hf|Hf]; rewrite Hf; repeat split.
Qed.

Lemma getitem_merged_caller (name k v : string)
    (negotiated d : list (string * string)) (h : headers) :
  PyStr.lower name = PyStr.lower k ->
  getitem name (merged negotiated (Some (d ++ [(k, v)])) h) = Some v.
Proof.
  intros E. unfold merged, update. rewrite fold_left_app. cbn.
  now apply getitem_setitem_eq.
Qed.

(** X19. The caller's headers are written last and looked up without
    regard to case: on a connected client, the last header the caller
    passes goes out with the caller's value under any spelling of its
    name, also when the name is Accept or Content-type. *)
Theorem caller_headers_win
    (api_url : string) (p : payload) (content_type content_type' : option string)
    (d : list (string * string)) (k v name : string)
    (expected : codes) (timeout : Z)
    (w : world) (b ct ct' : string) (s : Session) :
  connected (self w) = true ->
  Self.base_url (self w) = Some b ->
  Self.session (self w) = Some s ->
  match content_type with Some c => Some c | None => Self.content_type (self w) end
    = Some ct ->
  sniff p content_type' = Ok ct' ->
  PyStr.lower name = PyStr.lower k ->
  let hs := Some (d ++ [(k, v)]) in
  sent_header name (get api_url content_type hs expected timeout) w = Some v
  /\ sent_header name (post api_url p content_type' hs expected timeout) w = Some v
  /\ sent_header name (patch api_url p content_type' hs expected timeout) w = Some v
  /\ sent_header name (put api_url p content_type' hs expected timeout) w = Some v
  /\ sent_header name (delete api_url content_type hs expected timeout) w = Some v.
Proof.
  intros Hc Hb Hs Hg Hct Hname hs. subst hs.
  destruct (sniff_ok_serialize_ok json_dumps dict2xml _ _ _ Hct) as [rp Hp].
  unfold sent_header.
  rewrite (get_sends device_name alias send _ _ _ _ _ _ _ _ _ Hc Hb Hs Hg).
  rewrite (delete_sends device_name alias send _ _ _ _ _ _ _ _ _ Hc Hb Hs Hg).
  rewrite (post_sends device_name alias json_dumps dict2xml send
             _ _ _ _ _ _ _ _ _ _ _ Hc Hb Hs Hp Hct).
  rewrite (patch_sends device_name alias json_dumps dict2xml send
             _ _ _ _ _ _ _ _ _ _ _ Hc Hb Hs Hp Hct).
  rewrite (put_sends device_name alias json_dumps dict2xml send
             _ _ _ _ _ _ _ _ _ _ _ Hc Hb Hs Hp Hct).
  cbn [request_headers].
  rewrite !getitem_merged_caller by exact Hname. repeat split.
Qed.

(** X20. A header of the session that a verb does not negotiate and the
    caller does not pass goes out unchanged: for [get] and [delete] every
    header but Accept, for [post], [patch] and [put] every header but
    Accept and Content-type. *)
Theorem session_headers_are_sent
    (api_url : string) (p : payload) (content_type content_type' : option string)
    (hs : option (list (string * string))) (name : string)
    (expected : codes) (timeout : Z)
    (w : world) (b ct ct' : string) (s : Session) :
  connected (self w) = true ->
  Self.base_url (self w) = Some b ->
  Self.session (self w) = Some s ->
  match content_type with Some c => Some c | None => Self.content_type (self w) end
    = Some ct ->
  sniff p content_type' = Ok ct' ->
  overrides name hs = false ->
  PyStr.lower name <> "accept" ->
  let kept := getitem name (session_headers s) in
  sent_header name (get api_url content_type hs expected timeout) w = kept
  /\ sent_header name (delete api_url content_type hs expected timeout) w = kept
  /\ (PyStr.lower name <> "content-type" ->
      sent_header name (post api_url p content_type' hs expected timeout) w = kept
      /\ sent_header name (patch api_url p content_type' hs expected timeout) w = kept
      /\ sent_header name (put api_url p content_type' hs expected timeout) w = kept).
Proof.
  intros Hc Hb Hs Hg Hct Ho Hname kept. subst kept.
  destruct (sniff_ok_serialize_ok json_dumps dict2xml _ _ _ Hct) as [rp Hp].
  unfold sent_header.
  rewrite (get_sends device_name alias send _ _ _ _ _ _ _ _ _ Hc Hb Hs Hg).
  rewrite (delete_sends device_name alias send _ _ _ _ _ _ _ _ _ Hc Hb Hs Hg).
  rewrite (post_sends device_name alias json_dumps dict2xml send
             _ _ _ _ _ _ _ _ _ _ _ Hc Hb Hs Hp Hct).
  rewrite (patch_sends device_name alias json_dumps dict2xml send
             _ _ _ _ _ _ _ _ _ _ _ Hc Hb Hs Hp Hct).
  rewrite (put_sends device_name alias json_dumps dict2xml send
             _ _ _ _ _ _ _ _ _ _ _ Hc Hb Hs Hp Hct).
  cbn [request_headers].
  rewrite !getitem_merged by exact Ho.
  unfold update. cbn [fold_left fst snd].
  rewrite !(getitem_setitem_ne name "Accept") by exact Hname.
  split; [reflexivity|]. split; [reflexivity|].
  intros Hct2.
  rewrite !(getitem_setitem_ne name "Content-type") by exact Hct2.
  repeat split.
Qed.

End Behaviour.

(** ** The further behaviour at the testbed *)

(** X3 at a device that answers 300: expected when the caller lists it,
    an error under the defaults of [get]. *)
Lemma verbs_result_follows_answer_witness :
  fst (get Testbed.device_name Testbed.alias (Testbed.answers 300)
           "/api/running/devices" None None (CTuple [200; 300]) 30
           Testbed.online)
  = Ok {| status_code := 300; reason := "-"; text := "-" |}
  /\ fst (get Testbed.device_name Testbed.alias (Testbed.answers 300)
              "/api/running/devices" None None get_default_codes 30
              Testbed.online)
     = Raise (RequestException
                (("'300' result code has been returned instead of the expected "
                  +:+ "status code(s) '(204, 200)' for 'ncs'")
                 +:+ PyStr.newline +:+ "-")).
Proof.
  split.
  - exact (proj1 (verbs_result_follows_answer Testbed.device_name Testbed.alias
                    Testbed.json_dumps Testbed.dict2xml (Testbed.answers 300)
                    "/api/running/devices" (PStr "{}") None None
                    (CTuple [200; 300]) 30 Testbed.online) _ eq_refl).
  - exact (proj1 (verbs_result_follows_answer Testbed.device_name Testbed.alias
                    Testbed.json_dumps Testbed.dict2xml (Testbed.answers 300)
                    "/api/running/devices" (PStr "{}") None None
                    get_default_codes 30 Testbed.online) _ eq_refl).
Defined.

(** X5: the Content-type of a post goes out with the following get. *)
Lemma post_headers_reach_next_get_witness :
  sent_header "Content-type"
    (Testbed.get "/api/running/devices" None None get_default_codes 30)
    (snd (Testbed.post "/api/running/devices" (PStr "{}") None None
                       write_default_codes 30 Testbed.online))
  = Some "application/vnd.yang.datastore+json".
Proof.
  exact (eq_trans
           (post_headers_reach_next_get Testbed.device_name Testbed.alias
              Testbed.json_dumps Testbed.dict2xml (Testbed.answers 200)
              "/api/running/devices" (PStr "{}") None None write_default_codes 30
              "/api/running/devices" None None get_default_codes 30
              Testbed.online Testbed.exploded_url "json" "json" "Content-type"
              Testbed.the_session eq_refl eq_refl eq_refl eq_refl eq_refl
              ltac:(vm_compute; discriminate) eq_refl)
           eq_refl).
Defined.

(** X6 at the testbed. *)
Lemma connect_succeeds_on_200_witness :
  Testbed.connect 200 30 default_port default_protocol "json" Testbed.fresh
  = (Ok (Some {| status_code := 200; reason := "-"; text := "-" |}),
     Testbed.online).
Proof.
  exact (connect_succeeds_on_200 Testbed.via Testbed.connection_info
           Testbed.credentials true (TunnelPort None "127.0.0.1")
           Testbed.default_headers (Testbed.answers 200)
           30 default_port default_protocol "json" Testbed.fresh
           "[0000:0000:0000:0000:0000:0000:0000:0001]"
           {| status_code := 200; reason := "-"; text := "-" |}
           eq_refl eq_refl eq_refl eq_refl eq_refl).
Defined.

(** X7 at a transport that refuses the connection. *)
Lemma connect_propagates_transport_error_witness :
  fst (connect Testbed.via Testbed.connection_info Testbed.credentials true
               (TunnelPort None "127.0.0.1") Testbed.default_headers
               Testbed.refuses 30 default_port default_protocol "json"
               Testbed.fresh)
  = Raise (TransportError "connection refused").
Proof.
  exact (f_equal fst
           (connect_propagates_transport_error Testbed.via
              Testbed.connection_info Testbed.credentials true
              (TunnelPort None "127.0.0.1") Testbed.default_headers
              Testbed.refuses 30 default_port default_protocol "json"
              Testbed.fresh "[0000:0000:0000:0000:0000:0000:0000:0001]"
              (TransportError "connection refused")
              eq_refl eq_refl eq_refl eq_refl)).
Defined.

(** X8 at a block with neither host nor ip, and at one whose ip is a
    host name. *)
Lemma connect_without_target_witness :
  (exists e,
     fst (connect Testbed.via Testbed.no_target Testbed.credentials true
                  (TunnelPort None "127.0.0.1") Testbed.default_headers
                  (Testbed.answers 200) 30 default_port default_protocol "json"
                  Testbed.fresh) = Raise e
     /\ e = KeyError "ip")
  /\ (exists e msg,
        fst (connect Testbed.via Testbed.bad_ip Testbed.credentials true
                     (TunnelPort None "127.0.0.1") Testbed.default_headers
                     (Testbed.answers 200) 30 default_port default_protocol
                     "json" Testbed.fresh) = Raise e
        /\ e = ValueError msg).
Proof.
  split.
  - destruct (connect_without_target Testbed.via Testbed.no_target
                Testbed.credentials true (TunnelPort None "127.0.0.1")
                Testbed.default_headers (Testbed.answers 200)
                30 default_port default_protocol "json" Testbed.fresh
                eq_refl eq_refl eq_refl (or_introl eq_refl)) as (e & H & He).
    exists e. split; [exact (f_equal fst H) | exact He].
  - destruct (connect_without_target Testbed.via Testbed.bad_ip
                Testbed.credentials true (TunnelPort None "127.0.0.1")
                Testbed.default_headers (Testbed.answers 200)
                30 default_port default_protocol "json" Testbed.fresh
                eq_refl eq_refl eq_refl
                (or_intror (ex_intro _ "ncs.example.com" (conj eq_refl eq_refl))))
      as (e & H & msg & He).
    exists e, msg. split; [exact (f_equal fst H) | exact He].
Defined.

(** X9 at a block with a host beside an ip that is no address. *)
Lemma connect_prefers_host_witness :
  Self.base_url
    (self (snd (connect Testbed.via Testbed.by_host Testbed.credentials true
                        (TunnelPort None "127.0.0.1") Testbed.default_headers
                        (Testbed.answers 200) 30 default_port default_protocol
                        "json" Testbed.fresh)))
  = Some "https://ncs.example.com:8888".
Proof.
  exact (connect_prefers_host Testbed.via Testbed.by_host Testbed.credentials
           true (TunnelPort None "127.0.0.1") Testbed.default_headers
           (Testbed.answers 200) 30 default_port default_protocol "json"
           Testbed.fresh "ncs.example.com" eq_refl eq_refl eq_refl).
Defined.

(** X10 at the ip 127.0.0.1 with the default port and protocol. *)
Lemma connect_ipv4_base_url_witness :
  Self.base_url
    (self (snd (connect Testbed.via Testbed.by_ipv4 Testbed.credentials true
                        (TunnelPort None "127.0.0.1") Testbed.default_headers
                        (Testbed.answers 200) 30 default_port default_protocol
                        "json" Testbed.fresh)))
  = Some "http://127.0.0.1:8080".
Proof.
  exact (connect_ipv4_base_url Testbed.via Testbed.by_ipv4 Testbed.credentials
           true (TunnelPort None "127.0.0.1") Testbed.default_headers
           (Testbed.answers 200) 30 default_port default_protocol "json"
           Testbed.fresh (IpText "127.0.0.1")
           {| IpAddress.v4_ip := 2130706433 |}
           eq_refl eq_refl eq_refl eq_refl eq_refl).
Defined.

(** X11 at the testbed, whose block has port 8080 and protocol http. *)
Lemma connect_block_overrides_arguments_witness :
  Testbed.connect 200 30 (PortInt 443) "https" "json" Testbed.fresh
  = Testbed.connect 200 30 default_port default_protocol "json" Testbed.fresh.
Proof.
  exact (connect_block_overrides_arguments Testbed.via Testbed.connection_info
           Testbed.credentials true (TunnelPort None "127.0.0.1")
           Testbed.default_headers (Testbed.answers 200)
           30 (PortInt 443) default_port "https" default_protocol "json"
           Testbed.fresh (PortStr "8080") "http" eq_refl eq_refl).
Defined.

(** X12 at a block with a tunnel that is set up on port 2222. *)
Lemma connect_through_tunnel_fails_witness :
  exists e,
    fst (connect Testbed.via Testbed.by_tunnel Testbed.credentials true
                 (TunnelPort (Some 2222) "127.0.0.1") Testbed.default_headers
                 (Testbed.answers 200) 30 default_port default_protocol "json"
                 Testbed.fresh) = Raise e
    /\ e = UnboundLocalError "host".
Proof.
  destruct (connect_through_tunnel_fails Testbed.via Testbed.by_tunnel
              Testbed.credentials true (TunnelPort (Some 2222) "127.0.0.1")
              Testbed.default_headers (Testbed.answers 200)
              30 default_port default_protocol "json" Testbed.fresh
              eq_refl ltac:(discriminate)) as (e & H & He).
  exists e. split; [exact (f_equal fst H) | exact He].
Defined.

(** X15: the connected client, disconnected and connected again. *)
Lemma reconnect_starts_a_fresh_session_witness :
  Self.session
    (self (snd (Testbed.connect 200 30 default_port default_protocol "json"
                  (snd (disconnect Testbed.close_ok
                          (snd (Testbed.post "/api/running/devices" (PStr "{}")
                                  None None write_default_codes 30
                                  Testbed.online)))))))
  = Some Testbed.the_session.
Proof.
  exact (proj1 (proj2
           (reconnect_starts_a_fresh_session Testbed.via Testbed.connection_info
              Testbed.credentials true (TunnelPort None "127.0.0.1")
              Testbed.default_headers (Testbed.answers 200) Testbed.close_ok
              30 default_port default_protocol "json"
              (snd (Testbed.post "/api/running/devices" (PStr "{}")
                      None None write_default_codes 30 Testbed.online))
              "[0000:0000:0000:0000:0000:0000:0000:0001]"
              {| status_code := 200; reason := "-"; text := "-" |}
              eq_refl eq_refl eq_refl eq_refl))).
Defined.

(** X16 on the connected client, whose default content type is json. *)
Lemma reads_use_default_content_type_witness :
  Testbed.get "/api/running/devices" None None get_default_codes 30
              Testbed.online
  = Testbed.get "/api/running/devices" (Some "json") None get_default_codes 30
                Testbed.online.
Proof.
  exact (proj1 (reads_use_default_content_type Testbed.device_name Testbed.alias
                  (Testbed.answers 200) "/api/running/devices" None
                  get_default_codes 30 Testbed.online "json" eq_refl)).
Defined.

(** X18 at the content type Xml. *)
Lemma content_type_case_is_ignored_witness :
  Testbed.get "/api/running/devices" (Some "Xml") None get_default_codes 30
              Testbed.online
  = Testbed.get "/api/running/devices" (Some "xml") None get_default_codes 30
                Testbed.online.
Proof.
  exact (proj1 (content_type_case_is_ignored Testbed.device_name Testbed.alias
                  Testbed.json_dumps Testbed.dict2xml (Testbed.answers 200)
                  "/api/running/devices" "<devices/>" "Xml" "xml" None
                  get_default_codes 30 Testbed.online eq_refl
                  (or_intror eq_refl))).
Defined.

(** X19: an accept header of the caller, in lower case, replaces the
    negotiated Accept. *)
Lemma caller_headers_win_witness :
  sent_header "Accept"
    (Testbed.post "/api/running/devices" (PStr "{}") None
                  (Some [("X-Trace", "1"); ("accept", "text/plain")])
                  write_default_codes 30)
    Testbed.online
  = Some "text/plain".
Proof.
  exact (proj1 (proj2
           (caller_headers_win Testbed.device_name Testbed.alias
              Testbed.json_dumps Testbed.dict2xml (Testbed.answers 200)
              "/api/running/devices" (PStr "{}") None None
              [("X-Trace", "1")] "accept" "text/plain" "Accept"
              write_default_codes 30 Testbed.online Testbed.exploded_url
              "json" "json" Testbed.the_session
              eq_refl eq_refl eq_refl eq_refl eq_refl eq_refl))).
Defined.

(** X20: a header left in the session by an earlier call goes out with
    the next [delete]. *)
Lemma session_headers_are_sent_witness :
  sent_header "X-Trace"
    (Testbed.delete "/api/running/devices/device/ce0" None None
                    write_default_codes 30)
    (snd (Testbed.get "/api/running/devices" None (Some [("X-Trace", "1")])
                      get_default_codes 30 Testbed.online))
  = Some "1".
Proof.
  exact (eq_trans
           (proj1 (proj2
              (session_headers_are_sent Testbed.device_name Testbed.alias
                 Testbed.json_dumps Testbed.dict2xml (Testbed.answers 200)
                 "/api/running/devices/device/ce0" (PStr "{}") None None None
                 "X-Trace" write_default_codes 30
                 (snd (Testbed.get "/api/running/devices" None
                         (Some [("X-Trace", "1")]) get_default_codes 30
                         Testbed.online))
                 Testbed.exploded_url "json" "json"
                 {| auth := Some Testbed.credentials;
                    session_headers :=
                      setitem "X-Trace" "1"
                        (setitem "Accept"
                           ("application/vnd.yang.data+json, application/vnd.yang.collection+json"
                            +:+ ", application/vnd.yang.datastore+json")
                           Testbed.default_headers) |}
                 eq_refl eq_refl eq_refl eq_refl eq_refl eq_refl
                 ltac:(vm_compute; discriminate))))
           eq_refl).
Defined.
